(** * View and route predicates of [pyramid.config.predicates]

    A shallow embedding of the eleven predicate classes of
    [pyramid/config/predicates.py] together with the parts of the Python
    runtime they rely on (string splitting and trimming, [sorted], [bool],
    exceptions), followed by the properties of their construction, of
    [text()] / [phash()] and of [__call__].

    Conventions.
    - A Python [str] is a [string]: a sequence of code points below 256.
    - A Python [dict] with string keys is a [gmap string _].
    - A call that may raise returns a [result]; [Raise e] is the exception
      that leaves the call.
    - Objects the module receives from elsewhere (compiled regular
      expressions, interfaces, resources, the route compiler) are reached
      through the classes [RegexEngine] and [Collaborators]. *)

From Stdlib Require Import ZArith Ascii DecimalString.
From Stdlib Require DecimalZ DecimalPos.
From stdpp Require Import base strings list gmap sorting.

Local Open Scope string_scope.
Local Open Scope Z_scope.

(** ** Exceptions and results *)

(** The exceptions that can leave the code of this module.
    [ConfigurationError] is [pyramid.exceptions.ConfigurationError]; the
    others are the Python built-ins of the same name. *)
Inductive exn : Type :=
  | ConfigurationError (msg : string)
  | ValueError
  | KeyError (key : string)
  | TypeError
  | OtherError (what : string).

Inductive result (A : Type) : Type :=
  | Ok (a : A)
  | Raise (e : exn).

Arguments Ok {A} a.
Arguments Raise {A} e.

#[global] Instance result_bind : MBind result := λ A B k r,
  match r with
  | Ok a => k a
  | Raise e => Raise e
  end.

#[global] Instance result_ret : MRet result := λ A a, Ok a.

Definition is_Ok {A : Type} (r : result A) : Prop :=
  match r with Ok _ => True | Raise _ => False end.

(** [mapM f l]: a list comprehension [[f(x) for x in l]] whose body may
    raise; the first exception, in list order, is the one that propagates. *)
Fixpoint mapM {A B : Type} (f : A → result B) (l : list A) : result (list B) :=
  match l with
  | [] => Ok []
  | x :: l' => y ← f x; ys ← mapM f l'; Ok (y :: ys)
  end.

(** ** The Python runtime, as far as the module uses it *)

Module Py.

(** [c in s] for a one-character [c]. *)
Fixpoint contains (c : Ascii.ascii) (s : string) : bool :=
  match s with
  | EmptyString => false
  | String x s' => if Ascii.eqb x c then true else contains c s'
  end.

(** [cut sep s]: the text before and after the first [sep] of [s]. *)
Fixpoint cut (sep : Ascii.ascii) (s : string) : option (string * string) :=
  match s with
  | EmptyString => None
  | String x s' =>
      if Ascii.eqb x sep then Some (EmptyString, s')
      else match cut sep s' with
           | Some (a, b) => Some (String x a, b)
           | None => None
           end
  end.

(** [s.split(sep, 1)]: at most one split, at the first [sep]. *)
Definition split1 (sep : Ascii.ascii) (s : string) : list string :=
  match cut sep s with
  | Some (a, b) => [a; b]
  | None => [s]
  end.

(** Tuple unpacking [x, y = l]: [ValueError] unless [l] has two items. *)
Definition unpack2 {A : Type} (l : list A) : result (A * A) :=
  match l with
  | [x; y] => Ok (x, y)
  | _ => Raise ValueError
  end.

(** [str.isspace] on one code point below 256. *)
Definition isspace (c : Ascii.ascii) : bool :=
  let n := Ascii.N_of_ascii c in
  ((9 <=? n) && (n <=? 13) || (28 <=? n) && (n <=? 32)
   || (n =? 133) || (n =? 160))%N.

Fixpoint lstrip (s : string) : string :=
  match s with
  | EmptyString => EmptyString
  | String c s' => if isspace c then lstrip s' else s
  end.

Fixpoint rstrip (s : string) : string :=
  match s with
  | EmptyString => EmptyString
  | String c s' =>
      match rstrip s' with
      | EmptyString => if isspace c then EmptyString else String c EmptyString
      | r => String c r
      end
  end.

(** [s.strip()] *)
Definition strip (s : string) : string := rstrip (lstrip s).

(** [sep.join(l)] *)
Fixpoint join (sep : string) (l : list string) : string :=
  match l with
  | [] => ""
  | [x] => x
  | x :: l' => x +:+ sep +:+ join sep l'
  end.

(** [sorted(l)] on strings: ascending in the code-point order. *)
Definition sorted (l : list string) : list string := merge_sort String.le l.

(** ['%s' % b] for a [bool]. *)
Definition str_bool (b : bool) : string := if b then "True" else "False".

(** ['%r' % n] for an [int]. *)
Definition repr_int (n : Z) : string := NilZero.string_of_int (Z.to_int n).

(** Python values, where the module handles values of any type. *)
#[warnings="-register-all"]
Inductive value : Type :=
  | VNone
  | VBool (b : bool)
  | VInt (n : Z)
  | VStr (s : string)
  | VTuple (items : list value)
  | VDict (d : gmap string value)
  | VObject (name : string).

(** [bool(v)]. A plain object is true. *)
Definition truth (v : value) : bool :=
  match v with
  | VNone => false
  | VBool b => b
  | VInt n => negb (n =? 0)
  | VStr s => negb (String.eqb s "")
  | VTuple items => match items with [] => false | _ => true end
  | VDict d => negb (bool_decide (d = ∅))
  | VObject _ => true
  end.

End Py.

(** ** Collaborators *)

(** The exception [re.compile] raises, [re.error]; [args0] is [why.args[0]],
    the compiler's diagnostic. *)
Record re_error : Type := { args0 : string }.

(** What leaves [re.compile] when it does not return: [re.error], or an
    exception of another class, which [except re.error] does not catch
    ([OverflowError] for a repetition count beyond the limit,
    [RecursionError] for a pattern nested too deep); [what] names it. *)
Inductive compile_failure : Type :=
  | Re_error (why : re_error)
  | Re_other (what : string).

(** Python's [re] module, as the predicates use it. *)
Class RegexEngine : Type := {
  (** compiled pattern objects *)
  Pattern : Type;
  (** [re.compile(s)] *)
  re_compile : string → compile_failure + Pattern;
  (** [p.match(s) is not None]: a match that starts at position 0 of [s] *)
  pattern_match : Pattern → string → bool;
  (** ['%s' % p] *)
  pattern_str : Pattern → string;
}.

(** A value that is one string or an iterable of strings. *)
Inductive str_or_iter : Type :=
  | Str (s : string)
  | Iter (items : list string).

(** [pyramid.compat.is_nonstr_iter] *)
Definition is_nonstr_iter (v : str_or_iter) : bool :=
  match v with
  | Str _ => false
  | Iter _ => true
  end.

(** Modelled from the spec: [pyramid.config.util.as_sorted_tuple] is
    imported by the module and not part of the sources at hand.  Section 4.1
    gives it: a single string becomes a one-element sequence, and the result
    is sorted and duplicate-free; it has no errors. *)
Definition as_sorted_tuple (v : str_or_iter) : list string :=
  let items := match v with Str s => [s] | Iter items => items end in
  Py.sorted (remove_dups items).

(** The generator half of a compiled route: from the match dictionary to a
    URL-quoted path.  It raises when a placeholder has no entry. *)
Definition Generator : Type := Py.value → result string.

(** The matcher half, which the module drops. *)
Definition Matcher : Type := string → option (gmap string string).

(** The rest of pyramid that the predicates call.  Each of [maybe_dotted],
    [_compile_route] and [traversal_path] either returns or raises. *)
Class Collaborators : Type := {
  (** interfaces and classes used as markers *)
  Marker : Type;
  (** resources: the objects of the containment tree *)
  Resource : Type;
  (** ['%s' % marker] *)
  marker_str : Marker → string;
  (** [config.maybe_dotted(val)] *)
  maybe_dotted : Py.value → result Marker;
  (** [pyramid.traversal.find_interface(resource, marker)] *)
  find_interface : Resource → Marker → option Resource;
  (** [pyramid.urldispatch._compile_route(pattern)] *)
  _compile_route : string → result (Matcher * Generator);
  (** [pyramid.traversal.traversal_path(path)] *)
  traversal_path : string → result (list string);
}.

(** ** Requests and callables *)

Section Request.
Context `{Collaborators}.

(** The attributes of a request that the predicates read.  [headers] is the
    mapping's own lookup ([.get]); [accept] is the membership test of the
    negotiation object; [context] is [None] when the attribute is absent;
    [provides m] is [m.providedBy(request)]. *)
Record Request : Type := {
  is_xhr : Py.value;
  method : string;
  upath_info : string;
  params : gmap string string;
  headers : string → option string;
  accept : string → bool;
  matchdict : gmap string string;
  context : option Resource;
  provides : Marker → bool;
}.

(** A custom predicate function, with what the module asks of it:
    the call, [hash(func)], the [__text__] attribute when it has one, and
    [pyramid.util.object_description(func)]. *)
Record Callable : Type := {
  fn_call : Resource → Request → bool;
  fn_hash : Z;
  fn_text : option string;
  fn_description : string;
}.

(** [getattr(request, 'context', fallback)] *)
Definition getattr_context (request : Request) (fallback : Resource) : Resource :=
  default fallback (context request).

End Request.

(** ** The predicate classes *)

Module XHRPredicate.

Record t : Type := { val : bool }.

Definition init (val : Py.value) : result t :=
  Ok {| val := Py.truth val |}.

Definition text (self : t) : string :=
  "xhr = " +:+ Py.str_bool (val self).

Definition phash : t → string := text.

Section call.
Context `{Collaborators}.

(** [bool(request.is_xhr) is self.val]: [True] and [False] are singletons,
    so identity of two [bool]s is their equality. *)
Definition call (self : t) (context : Resource) (request : Request) : bool :=
  Bool.eqb (Py.truth (is_xhr request)) (val self).

End call.
End XHRPredicate.

Module RequestMethodPredicate.

Record t : Type := { val : list string }.

Definition init (val : str_or_iter) : result t :=
  Ok {| val := as_sorted_tuple val |}.

Definition text (self : t) : string :=
  "request_method = " +:+ Py.join "," (val self).

Definition phash : t → string := text.

Section call.
Context `{Collaborators}.

Definition call (self : t) (context : Resource) (request : Request) : bool :=
  bool_decide (method request ∈ val self).

End call.
End RequestMethodPredicate.

Module PathInfoPredicate.
Section defs.
Context `{RegexEngine}.

Record t : Type := { orig : string; val : Pattern }.

Definition init (val : string) : result t :=
  let orig := val in
  match re_compile val with
  | inl (Re_error why) => Raise (ConfigurationError (args0 why))
  | inl (Re_other what) => Raise (OtherError what)
  | inr val => Ok {| orig := orig; val := val |}
  end.

Definition text (self : t) : string :=
  "path_info = " +:+ orig self.

Definition phash : t → string := text.

Context `{Collaborators}.

Definition call (self : t) (context : Resource) (request : Request) : bool :=
  pattern_match (val self) (upath_info request).

End defs.
End PathInfoPredicate.

Module RequestParamPredicate.

Record t : Type := { _text : string; name : string; val : option string }.

Definition init (val : string) : result t :=
  let name := val in
  '(name, v) ←
    (if Py.contains "=" name
     then '(name, v) ← Py.unpack2 (Py.split1 "=" name);
          Ok (Py.strip name, Some (Py.strip v))
     else Ok (name, None));
  let _text :=
    match v with
    | None => "request_param " +:+ name
    | Some v => "request_param " +:+ name +:+ " = " +:+ v
    end in
  Ok {| _text := _text; name := name; val := v |}.

Definition text (self : t) : string := _text self.

Definition phash : t → string := text.

Section call.
Context `{Collaborators}.

Definition call (self : t) (context : Resource) (request : Request) : bool :=
  match val self with
  | None => bool_decide (is_Some (params request !! name self))
  | Some v => bool_decide (params request !! name self = Some v)
  end.

End call.
End RequestParamPredicate.

Module HeaderPredicate.
Section defs.
Context `{RegexEngine}.

Record t : Type := { _text : string; name : string; val : option Pattern }.

Definition init (val : string) : result t :=
  let name := val in
  '(name, v) ←
    (if Py.contains ":" name
     then '(name, v) ← Py.unpack2 (Py.split1 ":" name);
          match re_compile v with
          | inl (Re_error why) => Raise (ConfigurationError (args0 why))
          | inl (Re_other what) => Raise (OtherError what)
          | inr v => Ok (name, Some v)
          end
     else Ok (name, None));
  let _text :=
    match v with
    | None => "header " +:+ name
    | Some v => "header " +:+ name +:+ " = " +:+ pattern_str v
    end in
  Ok {| _text := _text; name := name; val := v |}.

Definition text (self : t) : string := _text self.

Definition phash : t → string := text.

Context `{Collaborators}.

Definition call (self : t) (context : Resource) (request : Request) : bool :=
  match val self with
  | None => bool_decide (is_Some (headers request (name self)))
  | Some pattern =>
      match headers request (name self) with
      | None => false
      | Some val => pattern_match pattern val
      end
  end.

End defs.
End HeaderPredicate.

Module AcceptPredicate.

Record t : Type := { val : string }.

Definition init (val : string) : result t := Ok {| val := val |}.

Definition text (self : t) : string := "accept = " +:+ val self.

Definition phash : t → string := text.

Section call.
Context `{Collaborators}.

Definition call (self : t) (context : Resource) (request : Request) : bool :=
  accept request (val self).

End call.
End AcceptPredicate.

Module ContainmentPredicate.
Section defs.
Context `{Collaborators}.

Record t : Type := { val : Marker }.

Definition init (val : Py.value) : result t :=
  val ← maybe_dotted val;
  Ok {| val := val |}.

Definition text (self : t) : string :=
  "containment = " +:+ marker_str (val self).

Definition phash : t → string := text.

Definition call (self : t) (context : Resource) (request : Request) : bool :=
  let ctx := getattr_context request context in
  bool_decide (is_Some (find_interface ctx (val self))).

End defs.
End ContainmentPredicate.

Module RequestTypePredicate.
Section defs.
Context `{Collaborators}.

Record t : Type := { val : Marker }.

Definition init (val : Marker) : result t := Ok {| val := val |}.

Definition text (self : t) : string :=
  "request_type = " +:+ marker_str (val self).

Definition phash : t → string := text.

Definition call (self : t) (context : Resource) (request : Request) : bool :=
  provides request (val self).

End defs.
End RequestTypePredicate.

Module MatchParamPredicate.

Record t : Type := { val : list string; reqs : list (string * string) }.

Definition init (val : str_or_iter) : result t :=
  let val :=
    match val with
    | Str s => [s]
    | Iter items => items
    end in
  let val := Py.sorted val in
  let reqs := Py.split1 "=" <$> val in
  reqs ← mapM (λ p, '(x, y) ← Py.unpack2 p; Ok (Py.strip x, Py.strip y)) reqs;
  Ok {| val := val; reqs := reqs |}.

Definition text (self : t) : string :=
  "match_param " +:+
  Py.join "," ((λ '(x, y), x +:+ "=" +:+ y) <$> reqs self).

Definition phash : t → string := text.

Section call.
Context `{Collaborators}.

Definition call (self : t) (context : Resource) (request : Request) : bool :=
  forallb (λ '(k, v), bool_decide (matchdict request !! k = Some v))
          (reqs self).

End call.
End MatchParamPredicate.

Module CustomPredicate.
Section defs.
Context `{Collaborators}.

Record t : Type := { func : Callable }.

Definition init (func : Callable) : result t := Ok {| func := func |}.

Definition text (self : t) : string :=
  default ("custom predicate: " +:+ fn_description (func self))
          (fn_text (func self)).

Definition phash (self : t) : string :=
  "custom:" +:+ Py.repr_int (fn_hash (func self)).

Definition call (self : t) (context : Resource) (request : Request) : bool :=
  fn_call (func self) context request.

End defs.
End CustomPredicate.

Module TraversePredicate.
Section defs.
Context `{Collaborators}.

Record t : Type := { tgenerate : Generator; val : string }.

Definition init (val : string) : result t :=
  '(_, tgenerate) ← _compile_route val;
  Ok {| tgenerate := tgenerate; val := val |}.

Definition text (self : t) : string := "traverse matchdict pseudo-predicate".

Definition phash (self : t) : string := "".

(** [d[key]] on a [dict] *)
Definition getitem (d : gmap string Py.value) (key : string) : result Py.value :=
  match d !! key with
  | Some v => Ok v
  | None => Raise (KeyError key)
  end.

(** [m[key] = v]: the object [m] itself is updated; the result is its new
    state.  Only a [dict] supports the assignment. *)
Definition setitem (m : Py.value) (key : string) (v : Py.value) : result Py.value :=
  match m with
  | Py.VDict d => Ok (Py.VDict (<[key := v]> d))
  | _ => Raise TypeError
  end.

(** [context] is the info dictionary of route matching.  It is changed in
    place, through the object [m] that it holds under ['match']: the second
    component of the result is the dictionary after the call. *)
Definition call (self : t) (context : gmap string Py.value) (request : Request)
  : result (bool * gmap string Py.value) :=
  if bool_decide (is_Some (context !! "traverse")) then Ok (true, context)
  else
    m ← getitem context "match";
    tvalue ← tgenerate self m;
    path ← traversal_path tvalue;
    m ← setitem m "traverse" (Py.VTuple (Py.VStr <$> path));
    Ok (true, <["match" := m]> context).

End defs.
End TraversePredicate.

(** ** The predicates as one type *)

Section Predicate.
Context `{RegexEngine} `{Collaborators}.

Inductive Predicate : Type :=
  | XHR (p : XHRPredicate.t)
  | RequestMethod (p : RequestMethodPredicate.t)
  | PathInfo (p : PathInfoPredicate.t)
  | RequestParam (p : RequestParamPredicate.t)
  | Header (p : HeaderPredicate.t)
  | Accept (p : AcceptPredicate.t)
  | Containment (p : ContainmentPredicate.t)
  | RequestType (p : RequestTypePredicate.t)
  | MatchParam (p : MatchParamPredicate.t)
  | Custom (p : CustomPredicate.t)
  | Traverse (p : TraversePredicate.t).

(** [p.text()], by the class of [p]. *)
Definition text (p : Predicate) : string :=
  match p with
  | XHR p => XHRPredicate.text p
  | RequestMethod p => RequestMethodPredicate.text p
  | PathInfo p => PathInfoPredicate.text p
  | RequestParam p => RequestParamPredicate.text p
  | Header p => HeaderPredicate.text p
  | Accept p => AcceptPredicate.text p
  | Containment p => ContainmentPredicate.text p
  | RequestType p => RequestTypePredicate.text p
  | MatchParam p => MatchParamPredicate.text p
  | Custom p => CustomPredicate.text p
  | Traverse p => TraversePredicate.text p
  end.

(** [p.phash()], by the class of [p]. *)
Definition phash (p : Predicate) : string :=
  match p with
  | XHR p => XHRPredicate.phash p
  | RequestMethod p => RequestMethodPredicate.phash p
  | PathInfo p => PathInfoPredicate.phash p
  | RequestParam p => RequestParamPredicate.phash p
  | Header p => HeaderPredicate.phash p
  | Accept p => AcceptPredicate.phash p
  | Containment p => ContainmentPredicate.phash p
  | RequestType p => RequestTypePredicate.phash p
  | MatchParam p => MatchParamPredicate.phash p
  | Custom p => CustomPredicate.phash p
  | Traverse p => TraversePredicate.phash p
  end.

End Predicate.

(** ** Small collaborators, to run the predicates on concrete inputs *)

Module Mini.

(** *** A regular-expression engine for a fragment of Python's [re]

    The fragment: ordinary characters, [.], the class [\d], a backslash
    before a punctuation character, and a count [{n}] after one of these.
    On it the engine compiles, matches and prints as CPython 3 does; a
    pattern that ends in a lone backslash, a count with nothing before it
    and a count after a count are refused with CPython's diagnostics, and a
    count of [MAXREPEAT] or more raises [OverflowError].  Operators outside
    the fragment are refused as unsupported. *)

Inductive atom : Type :=
  | Lit (c : Ascii.ascii)
  | AnyChar
  | Digit.

(** An atom and the number of times it is to match in a row. *)
Definition item : Type := atom * N.

Record compiled : Type := { source : string; atoms : list item }.

Definition in_range (lo hi : N) (c : Ascii.ascii) : bool :=
  let n := Ascii.N_of_ascii c in ((lo <=? n) && (n <=? hi))%N.

Definition is_digit (c : Ascii.ascii) : bool := in_range 48 57 c.

Definition is_alnum (c : Ascii.ascii) : bool :=
  is_digit c || in_range 65 90 c || in_range 97 122 c.

(** The characters that are operators of [re] outside the fragment. *)
Definition is_operator (c : Ascii.ascii) : bool :=
  bool_decide (c ∈ String.list_ascii_of_string "*+?[](){}|^$").

(** [_sre.MAXREPEAT] *)
Definition MAXREPEAT : N := 4294967295.

Definition unsupported : compile_failure :=
  Re_error {| args0 := "unsupported by this engine" |}.

Definition error_at (msg : string) (pos : nat) : compile_failure :=
  Re_error {| args0 := msg +:+ " at position " +:+ Py.repr_int (Z.of_nat pos) |}.

(** Where the parser is: between items ([repeated] when the last item is a
    repetition), after a backslash, or inside the braces of a count that
    opened at [start]. *)
Inductive mode : Type :=
  | Plain (repeated : bool)
  | Escaped
  | Counting (start : nat) (repeated : bool) (digits : option N).

(** The parser reads the pattern from the left; [done] holds the items read
    so far, the last one first.  A count [{n}] repeats the atom before it;
    as in [sre_parse], a count of [MAXREPEAT] or more raises
    [OverflowError], before it is asked what the count applies to. *)
Fixpoint parse (pos : nat) (m : mode) (done : list item) (s : string)
  : compile_failure + list item :=
  match s with
  | EmptyString =>
      match m with
      | Plain _ => inr (reverse done)
      | Escaped => inl (error_at "bad escape (end of pattern)" (pos - 1))
      | Counting _ _ _ => inl unsupported
      end
  | String c s' =>
      match m with
      | Escaped =>
          if Ascii.eqb c "d" then
            parse (S pos) (Plain false) ((Digit, 1%N) :: done) s'
          else if is_alnum c then inl unsupported
          else parse (S pos) (Plain false) ((Lit c, 1%N) :: done) s'
      | Counting start repeated digits =>
          if is_digit c then
            parse (S pos)
              (Counting start repeated
                 (Some (10 * default 0 digits + (Ascii.N_of_ascii c - 48))%N))
              done s'
          else if Ascii.eqb c "}" then
            match digits with
            | None => inl unsupported
            | Some n =>
                if (MAXREPEAT <=? n)%N then inl (Re_other "OverflowError")
                else
                  match done with
                  | [] => inl (error_at "nothing to repeat" start)
                  | (a, _) :: done' =>
                      if repeated then inl (error_at "multiple repeat" start)
                      else parse (S pos) (Plain true) ((a, n) :: done') s'
                  end
            end
          else inl unsupported
      | Plain repeated =>
          if Ascii.eqb c "\" then parse (S pos) Escaped done s'
          else if Ascii.eqb c "{" then
            parse (S pos) (Counting pos repeated None) done s'
          else if is_operator c then inl unsupported
          else parse (S pos) (Plain false)
                 ((if Ascii.eqb c "." then AnyChar else Lit c, 1%N) :: done) s'
      end
  end.

Definition compile (s : string) : compile_failure + compiled :=
  match parse 0 (Plain false) [] s with
  | inr l => inr {| source := s; atoms := l |}
  | inl e => inl e
  end.

Definition atom_accepts (a : atom) (c : Ascii.ascii) : bool :=
  match a with
  | Lit x => Ascii.eqb x c
  | AnyChar => negb (Ascii.eqb c "010")
  | Digit => is_digit c
  end.

(** [n] characters in a row that [a] accepts, then what [rest] accepts. *)
Fixpoint match_count (a : atom) (rest : string → bool) (n : N) (s : string)
  : bool :=
  if (n =? 0)%N then rest s
  else match s with
       | EmptyString => false
       | String c s' => atom_accepts a c && match_count a rest (N.pred n) s'
       end.

(** A match at position 0: the items accept a prefix of the subject. *)
Fixpoint match_prefix (l : list item) : string → bool :=
  match l with
  | [] => λ _, true
  | (a, n) :: l' => match_count a (match_prefix l') n
  end.

Definition squote : Ascii.ascii := "'".
Definition dquote : Ascii.ascii := Ascii.ascii_of_nat 34.

Definition hex_digit (n : N) : Ascii.ascii :=
  Ascii.ascii_of_N (if (n <? 10)%N then 48 + n else 87 + n)%N.

(** [repr] of one character inside a string literal quoted by [q]. *)
Definition repr_char (q c : Ascii.ascii) : string :=
  let n := Ascii.N_of_ascii c in
  if Ascii.eqb c q || Ascii.eqb c "\" then String "\" (String c EmptyString)
  else if (n =? 9)%N then "\t"
  else if (n =? 10)%N then "\n"
  else if (n =? 13)%N then "\r"
  else if (n <? 32)%N || ((127 <=? n) && (n <=? 160))%N || (n =? 173)%N
  then String "\" (String "x"
         (String (hex_digit (n / 16)) (String (hex_digit (n mod 16)) EmptyString)))
  else String c EmptyString.

Fixpoint repr_chars (q : Ascii.ascii) (s : string) : string :=
  match s with
  | EmptyString => EmptyString
  | String c s' => repr_char q c +:+ repr_chars q s'
  end.

(** [repr(s)] for a [str]: single quotes, unless the text has a single
    quote and no double quote. *)
Definition repr_str (s : string) : string :=
  let q := if Py.contains squote s && negb (Py.contains dquote s)
           then dquote else squote in
  String q (repr_chars q s +:+ String q EmptyString).

(** [str(p)] of a compiled pattern: [re.compile(%.200R)] of its source. *)
Definition compiled_str (p : compiled) : string :=
  "re.compile(" +:+ String.substring 0 200 (repr_str (source p)) +:+ ")".

#[export] Instance re : RegexEngine := {|
  Pattern := compiled;
  re_compile := compile;
  pattern_match p s := match_prefix (atoms p) s;
  pattern_str := compiled_str;
|}.

(** *** Routes, traversal paths, markers and resources *)

(** [s.split(sep)] *)
Fixpoint split (sep : Ascii.ascii) (s : string) : list string :=
  match s with
  | EmptyString => [EmptyString]
  | String c s' =>
      if Ascii.eqb c sep then EmptyString :: split sep s'
      else match split sep s' with
           | w :: ws => String c w :: ws
           | [] => [String c EmptyString]
           end
  end.

Definition nonempty (s : string) : bool := negb (String.eqb s "").

(** One segment of a route pattern: text, or a placeholder [:name]. *)
Inductive segment : Type :=
  | Text (s : string)
  | Placeholder (name : string).

Definition parse_segment (s : string) : segment :=
  match s with
  | String ":" name => Placeholder name
  | _ => Text s
  end.

(** [str(v)], as ['%s'] formatting fills a placeholder: a string is
    itself, a tuple of strings prints its items' [repr]. *)
Definition str_value (v : Py.value) : result string :=
  match v with
  | Py.VStr s => Ok s
  | Py.VTuple items =>
      items ← mapM (λ x, match x with
                         | Py.VStr s => Ok (repr_str s)
                         | _ => Raise (OtherError "unsupported item")
                         end) items;
      Ok ("(" +:+ Py.join ", " items +:+
          (if bool_decide (length items = 1%nat) then "," else "") +:+ ")")
  | _ => Raise (OtherError "unsupported value")
  end.

Definition fill (d : gmap string Py.value) (s : segment) : result string :=
  match s with
  | Text s => Ok s
  | Placeholder name =>
      match d !! name with
      | Some v => str_value v
      | None => Raise (KeyError name)
      end
  end.

(** Modelled from the spec: the route-pattern compiler of
    [pyramid.urldispatch] is not part of the sources at hand.  Its generator
    fills the placeholders of the pattern from a match dictionary.  Here a
    pattern is a sequence of [/]-separated segments, and URL quoting, which
    [traversal_path] undoes, is left out. *)
Definition compile_route (pattern : string) : Matcher * Generator :=
  let segments := parse_segment <$> filter (λ s, nonempty s) (split "/" pattern) in
  (λ path, None,
   λ m, match m with
        | Py.VDict d =>
            filled ← mapM (fill d) segments;
            Ok ("/" +:+ Py.join "/" filled)
        | _ => Raise (OtherError "AttributeError")
        end).

(** Modelled from the spec: the traversal-path splitter of
    [pyramid.traversal] is not part of the sources at hand.  It returns the
    ordered sequence of the path's segments; empty and [.] segments are
    dropped and [..] removes the segment before it. *)
Definition split_path (path : string) : list string :=
  foldl (λ clean s,
           if String.eqb s "" || String.eqb s "." then clean
           else if String.eqb s ".." then removelast clean
           else (clean ++ [s])%list)
        [] (split "/" path).

(** A marker is known by its dotted name; a resource is its lineage, from
    the resource itself up to the root, each node with the markers it
    provides. *)
Fixpoint find_provider (lineage : list (list string)) (marker : string)
  : option (list (list string)) :=
  match lineage with
  | [] => None
  | node :: parents =>
      if bool_decide (marker ∈ node) then Some lineage
      else find_provider parents marker
  end.

Definition resolve (v : Py.value) : string :=
  match v with
  | Py.VStr dotted => dotted
  | Py.VObject name => name
  | _ => ""
  end.

#[export] Instance pyramid : Collaborators := {|
  Marker := string;
  Resource := list (list string);
  marker_str m := m;
  maybe_dotted v := Ok (resolve v);
  find_interface := find_provider;
  _compile_route pattern := Ok (compile_route pattern);
  traversal_path path := Ok (split_path path);
|}.

(** A request with nothing in it. *)
Definition blank_request : Request := {|
  is_xhr := Py.VBool false;
  method := "GET";
  upath_info := "/";
  params := ∅;
  headers := λ _, None;
  accept := λ _, false;
  matchdict := ∅;
  context := None;
  provides := λ _, false;
|}.

(** A request with one header. *)
Definition with_header (name value : string) : Request := {|
  is_xhr := Py.VBool false;
  method := "GET";
  upath_info := "/";
  params := ∅;
  headers := λ key, if String.eqb key name then Some value else None;
  accept := λ _, false;
  matchdict := ∅;
  context := None;
  provides := λ _, false;
|}.

(** The info dictionary of the test suite: [{'match': {'a': 'a', 'b': 'b'}}]. *)
Definition info_a_b : gmap string Py.value :=
  {[ "match" := Py.VDict {[ "a" := Py.VStr "a"; "b" := Py.VStr "b" ]} ]}.

(** An info dictionary whose match dictionary has an entry named
    [traverse]: [{'match': {'traverse': 'a'}}]. *)
Definition info_traverse : gmap string Py.value :=
  {[ "match" := Py.VDict {[ "traverse" := Py.VStr "a" ]} ]}.

(** [TraversePredicate('/1/:a/:b')], the predicate of the test suite. *)
Definition traverse_1_a_b : TraversePredicate.t := {|
  TraversePredicate.tgenerate := (compile_route "/1/:a/:b").2;
  TraversePredicate.val := "/1/:a/:b";
|}.

(** [TraversePredicate('/:traverse')]: its one placeholder has the name of
    the key the predicate stores. *)
Definition traverse_self : TraversePredicate.t := {|
  TraversePredicate.tgenerate := (compile_route "/:traverse").2;
  TraversePredicate.val := "/:traverse";
|}.

(** A request with a match dictionary. *)
Definition with_matchdict (m : gmap string string) : Request := {|
  is_xhr := Py.VBool false;
  method := "GET";
  upath_info := "/";
  params := ∅;
  headers := λ _, None;
  accept := λ _, false;
  matchdict := m;
  context := None;
  provides := λ _, false;
|}.

(** An info dictionary as route matching hands it over, with the route
    beside the match dictionary: [{'match': {'a': 'a', 'b': 'b'}, 'route': route}]. *)
Definition info_route : gmap string Py.value :=
  {[ "match" := Py.VDict {[ "a" := Py.VStr "a"; "b" := Py.VStr "b" ]};
     "route" := Py.VObject "route" ]}.

(** A request with parameters. *)
Definition with_params (m : gmap string string) : Request := {|
  is_xhr := Py.VBool false;
  method := "GET";
  upath_info := "/";
  params := m;
  headers := λ _, None;
  accept := λ _, false;
  matchdict := ∅;
  context := None;
  provides := λ _, false;
|}.

(** A resource at the root of its tree, providing no marker. *)
Definition root : Resource := [[]].

(** Two custom predicates that answer differently and hash alike. *)
Definition accept_all : Callable := {|
  fn_call := λ _ _, true;
  fn_hash := 1;
  fn_text := None;
  fn_description := "object predicate";
|}.

Definition reject_all : Callable := {|
  fn_call := λ _ _, false;
  fn_hash := 1;
  fn_text := Some "text";
  fn_description := "function reject_all";
|}.

End Mini.

(** ** The canonical text of a match parameter, as the specification words it *)

(** The items of a "one or many" input. *)
Definition items_of (v : str_or_iter) : list string :=
  match v with
  | Str s => [s]
  | Iter items => items
  end.

(** One [key=value] string, split at its first [=], both sides trimmed. *)
Definition key_value (s : string) : string * string :=
  match Py.cut "=" s with
  | Some (k, v) => (Py.strip k, Py.strip v)
  | None => (Py.strip s, "")
  end.

Definition key_value_text (s : string) : string :=
  (key_value s).1 +:+ "=" +:+ (key_value s).2.

(** The text section 4.10 describes: the trimmed pairs, comma-joined, in the
    order of the sorted raw strings. *)
Definition match_param_text (raw : list string) : string :=
  "match_param " +:+ Py.join "," (key_value_text <$> Py.sorted raw).

(** ** The steps of a traverse predicate *)

Section Traversal.
Context `{Collaborators}.

(** The traversal sequence the predicate derives from the match dictionary
    [m]: the generator's path, split. *)
Definition traversal_of (p : TraversePredicate.t) (m : Py.value)
  : result (list string) :=
  tvalue ← TraversePredicate.tgenerate p m;
  traversal_path tvalue.

(** The info dictionary [context], once [path] is stored under
    ['traverse'] in its match dictionary [d]. *)
Definition with_traverse (context d : gmap string Py.value) (path : list string)
  : gmap string Py.value :=
  <["match" := Py.VDict (<["traverse" := Py.VTuple (Py.VStr <$> path)]> d)]> context.

End Traversal.

(** ** The classes and what their constructors build *)

Inductive class_name : Type :=
  | XHRPredicate_class
  | RequestMethodPredicate_class
  | PathInfoPredicate_class
  | RequestParamPredicate_class
  | HeaderPredicate_class
  | AcceptPredicate_class
  | ContainmentPredicate_class
  | RequestTypePredicate_class
  | MatchParamPredicate_class
  | CustomPredicate_class
  | TraversePredicate_class.

#[global] Instance class_name_eq_dec : EqDecision class_name.
Proof. solve_decision. Defined.

(** The literal text with which the class starts its [phash()]: the part
    of its format string before the first conversion. *)
Definition phash_prefix (c : class_name) : string :=
  match c with
  | XHRPredicate_class => "xhr = "
  | RequestMethodPredicate_class => "request_method = "
  | PathInfoPredicate_class => "path_info = "
  | RequestParamPredicate_class => "request_param "
  | HeaderPredicate_class => "header "
  | AcceptPredicate_class => "accept = "
  | ContainmentPredicate_class => "containment = "
  | RequestTypePredicate_class => "request_type = "
  | MatchParamPredicate_class => "match_param "
  | CustomPredicate_class => "custom:"
  | TraversePredicate_class => ""
  end.

(** [s.startswith(prefix)] *)
Fixpoint startswith (prefix s : string) : bool :=
  match prefix, s with
  | EmptyString, _ => true
  | String a prefix', String b s' => Ascii.eqb a b && startswith prefix' s'
  | String _ _, EmptyString => false
  end.

Section Classes.
Context `{RegexEngine} `{Collaborators}.

(** [type(p)] *)
Definition class_of (p : Predicate) : class_name :=
  match p with
  | XHR _ => XHRPredicate_class
  | RequestMethod _ => RequestMethodPredicate_class
  | PathInfo _ => PathInfoPredicate_class
  | RequestParam _ => RequestParamPredicate_class
  | Header _ => HeaderPredicate_class
  | Accept _ => AcceptPredicate_class
  | Containment _ => ContainmentPredicate_class
  | RequestType _ => RequestTypePredicate_class
  | MatchParam _ => MatchParamPredicate_class
  | Custom _ => CustomPredicate_class
  | Traverse _ => TraversePredicate_class
  end.

(** The predicates that exist at run time: those a constructor returned. *)
Inductive Constructed : Predicate → Prop :=
  | Constructed_XHR v p :
      XHRPredicate.init v = Ok p → Constructed (XHR p)
  | Constructed_RequestMethod v p :
      RequestMethodPredicate.init v = Ok p → Constructed (RequestMethod p)
  | Constructed_PathInfo val p :
      PathInfoPredicate.init val = Ok p → Constructed (PathInfo p)
  | Constructed_RequestParam val p :
      RequestParamPredicate.init val = Ok p → Constructed (RequestParam p)
  | Constructed_Header val p :
      HeaderPredicate.init val = Ok p → Constructed (Header p)
  | Constructed_Accept val p :
      AcceptPredicate.init val = Ok p → Constructed (Accept p)
  | Constructed_Containment v p :
      ContainmentPredicate.init v = Ok p → Constructed (Containment p)
  | Constructed_RequestType marker p :
      RequestTypePredicate.init marker = Ok p → Constructed (RequestType p)
  | Constructed_MatchParam v p :
      MatchParamPredicate.init v = Ok p → Constructed (MatchParam p)
  | Constructed_Custom func p :
      CustomPredicate.init func = Ok p → Constructed (Custom p)
  | Constructed_Traverse val p :
      TraversePredicate.init val = Ok p → Constructed (Traverse p).

End Classes.

(** [any(c.isspace() for c in s)] *)
Fixpoint has_space (s : string) : bool :=
  match s with
  | EmptyString => false
  | String c s' => Py.isspace c || has_space s'
  end.

(** * Properties *)

(** ** Strings *)

Lemma contains_false_cut (c : Ascii.ascii) (s : string) :
  Py.contains c s = false → Py.cut c s = None.
Proof.
  induction s as [|x s IH]; simpl; [done|].
  destruct (Ascii.eqb x c); [done|].
  intros Hs. by rewrite (IH Hs).
Qed.

Lemma contains_true_cut (c : Ascii.ascii) (s : string) :
  Py.contains c s = true → ∃ a b, Py.cut c s = Some (a, b).
Proof.
  induction s as [|x s IH]; simpl; [done|].
  destruct (Ascii.eqb x c); [eauto|].
  intros Hs. destruct (IH Hs) as (a & b & ->). eauto.
Qed.

Lemma cut_Some_contains (c : Ascii.ascii) (s a b : string) :
  Py.cut c s = Some (a, b) → Py.contains c s = true.
Proof.
  destruct (Py.contains c s) eqn:Hc; [done|].
  by rewrite (contains_false_cut _ _ Hc).
Qed.

(** [cut] splits at the first separator: nothing is lost, and the part
    before it holds no separator. *)
Lemma cut_Some_first (c : Ascii.ascii) (s a b : string) :
  Py.cut c s = Some (a, b) → s = a +:+ String c b ∧ Py.contains c a = false.
Proof.
  revert a b. induction s as [|x s IH]; intros a b; simpl; [done|].
  destruct (Ascii.eqb_spec x c) as [->|Hne].
  - intros [= <- <-]. done.
  - destruct (Py.cut c s) as [[a' b']|]; [|done].
    intros [= <- <-]. destruct (IH a' b' eq_refl) as [-> Ha'].
    split; [done|]. simpl.
    destruct (Ascii.eqb_spec x c); [done|]. done.
Qed.

Lemma split1_cut (c : Ascii.ascii) (s a b : string) :
  Py.cut c s = Some (a, b) → Py.unpack2 (Py.split1 c s) = Ok (a, b).
Proof. unfold Py.split1. by intros ->. Qed.

Lemma split1_no_sep (c : Ascii.ascii) (s : string) :
  Py.contains c s = false → Py.unpack2 (Py.split1 c s) = Raise ValueError.
Proof. intros Hc. unfold Py.split1. by rewrite (contains_false_cut _ _ Hc). Qed.

(** ** XHRPredicate *)

Section XHR.
Context `{Collaborators}.

(** C10: construction takes any value and keeps its [bool]; so
    [XHRPredicate(v)] and [XHRPredicate(bool(v))] have the same [text()],
    the same [phash()] and the same result on every request, and the call
    compares the [bool] of the request's flag with the stored one. *)
Theorem XHRPredicate_bool_coercion (v : Py.value) :
  ∃ p q,
    XHRPredicate.init v = Ok p ∧
    XHRPredicate.init (Py.VBool (Py.truth v)) = Ok q ∧
    XHRPredicate.val p = Py.truth v ∧
    XHRPredicate.text p = XHRPredicate.text q ∧
    XHRPredicate.phash p = XHRPredicate.phash q ∧
    ∀ context request,
      XHRPredicate.call p context request = XHRPredicate.call q context request ∧
      XHRPredicate.call p context request
      = Bool.eqb (Py.truth (is_xhr request)) (Py.truth v).
Proof.
  exists {| XHRPredicate.val := Py.truth v |}, {| XHRPredicate.val := Py.truth v |}.
  repeat split.
Qed.

End XHR.

(** ** RequestParamPredicate *)

Section RequestParam.
Context `{Collaborators}.

(** C9: the name and the value are trimmed only when the input has an [=].
    Without one, the input is the parameter name as it stands, untrimmed, in
    [text()] and in the membership test of the call. *)
Theorem RequestParamPredicate_trims_only_with_equals (val : string) :
  ∃ p,
    RequestParamPredicate.init val = Ok p ∧
    (Py.contains "=" val = false →
       RequestParamPredicate.name p = val ∧
       RequestParamPredicate.val p = None ∧
       RequestParamPredicate.text p = "request_param " +:+ val ∧
       ∀ context request,
         RequestParamPredicate.call p context request
         = bool_decide (is_Some (params request !! val))) ∧
    (∀ a b, Py.cut "=" val = Some (a, b) →
       RequestParamPredicate.name p = Py.strip a ∧
       RequestParamPredicate.val p = Some (Py.strip b) ∧
       RequestParamPredicate.text p
       = "request_param " +:+ Py.strip a +:+ " = " +:+ Py.strip b ∧
       ∀ context request,
         RequestParamPredicate.call p context request
         = bool_decide (params request !! Py.strip a = Some (Py.strip b))).
Proof.
  unfold RequestParamPredicate.init.
  destruct (Py.contains "=" val) eqn:Hc.
  - destruct (contains_true_cut _ _ Hc) as (a & b & Hcut).
    rewrite (split1_cut _ _ _ _ Hcut). simpl.
    eexists. split; [done|]. split; [done|].
    intros a' b' Hcut'. rewrite Hcut in Hcut'. injection Hcut' as <- <-.
    done.
  - simpl. eexists. split; [done|]. split; [done|].
    intros a b Hcut. by rewrite (contains_false_cut _ _ Hc) in Hcut.
Qed.

End RequestParam.

(** ** CustomPredicate *)

Section Custom.
Context `{Collaborators}.

(** C8: [phash()] of a custom predicate is a function of the hash of the
    wrapped callable alone: callables with equal hashes give equal
    [phash()], whatever else tells them apart, and no request takes part in
    computing it. *)
Theorem CustomPredicate_phash_by_hash (f g : Callable) :
  fn_hash f = fn_hash g →
  ∃ p q,
    CustomPredicate.init f = Ok p ∧
    CustomPredicate.init g = Ok q ∧
    CustomPredicate.phash p = CustomPredicate.phash q ∧
    CustomPredicate.phash p = "custom:" +:+ Py.repr_int (fn_hash f).
Proof.
  intros Hfg. do 2 eexists. repeat split.
  unfold CustomPredicate.phash. simpl. by rewrite Hfg.
Qed.

End Custom.

(** Two callables that answer differently and hash alike. *)
Lemma CustomPredicate_phash_by_hash_witness :
  fn_call Mini.accept_all Mini.root Mini.blank_request
  ≠ fn_call Mini.reject_all Mini.root Mini.blank_request ∧
  ∃ p q,
    CustomPredicate.init Mini.accept_all = Ok p ∧
    CustomPredicate.init Mini.reject_all = Ok q ∧
    CustomPredicate.phash p = CustomPredicate.phash q ∧
    CustomPredicate.phash p = "custom:1".
Proof.
  split; [discriminate|].
  exact (CustomPredicate_phash_by_hash Mini.accept_all Mini.reject_all eq_refl).
Defined.

(** ** [phash] and [text] across the classes *)

Lemma custom_prefixes_differ (a b : string) :
  "custom:" +:+ a ≠ "custom predicate: " +:+ b.
Proof. discriminate. Qed.

Section PhashText.
Context `{RegexEngine} `{Collaborators}.

(** C4: for the nine classes whose body binds [phash = text], [phash()]
    returns the string [text()] returns, on every instance.  Only
    [CustomPredicate] and [TraversePredicate] define a [phash] of their own:
    the first formats the hash of its callable, and differs from the
    default text; the second is the empty string, never the text. *)
Theorem phash_is_text_except_custom_and_traverse (p : Predicate) :
  match p with
  | Custom q =>
      phash p = "custom:" +:+ Py.repr_int (fn_hash (CustomPredicate.func q)) ∧
      (fn_text (CustomPredicate.func q) = None → phash p ≠ text p)
  | Traverse q =>
      phash p = "" ∧ phash p ≠ text p
  | _ => phash p = text p
  end.
Proof.
  destruct p as [q|q|q|q|q|q|q|q|q|q|q]; try reflexivity.
  - split; [reflexivity|].
    intros Hnone. simpl. unfold CustomPredicate.phash, CustomPredicate.text.
    rewrite Hnone. simpl. apply custom_prefixes_differ.
  - split; [reflexivity|]. discriminate.
Qed.

End PhashText.

(** ** PathInfoPredicate *)

Section PathInfo.
Context `{RegexEngine}.

(** C5, as amended: when [re.compile] rejects the pattern with [re.error]
    (as it does the single backslash), construction raises
    [ConfigurationError] with the compiler's own diagnostic as its message,
    and [ConfigurationError] is raised in no other case; when [re.compile]
    raises an exception of another class, that exception leaves
    construction as it is; when the pattern compiles, construction returns
    the predicate and raises nothing. *)
Theorem PathInfoPredicate_init_compile (val : string) :
  (∀ why, re_compile val = inl (Re_error why) →
     PathInfoPredicate.init val = Raise (ConfigurationError (args0 why))) ∧
  (∀ what, re_compile val = inl (Re_other what) →
     PathInfoPredicate.init val = Raise (OtherError what)) ∧
  (∀ pattern, re_compile val = inr pattern →
     PathInfoPredicate.init val
     = Ok {| PathInfoPredicate.orig := val; PathInfoPredicate.val := pattern |}) ∧
  (∀ msg, PathInfoPredicate.init val = Raise (ConfigurationError msg)
          ↔ ∃ why, re_compile val = inl (Re_error why) ∧ args0 why = msg) ∧
  (is_Ok (PathInfoPredicate.init val) ↔ ∃ pattern, re_compile val = inr pattern).
Proof.
  unfold PathInfoPredicate.init.
  destruct (re_compile val) as [[why|what]|pattern].
  - split; [by intros ? [= <-]|]. split; [done|]. split; [done|]. split.
    + intros msg. split; [intros [= <-]; by exists why|].
      by intros (why' & [= <-] & <-).
    + split; [done|]. by intros [? ?].
  - split; [done|]. split; [by intros ? [= <-]|]. split; [done|]. split.
    + intros msg. split; [done|]. by intros (why' & [=] & _).
    + split; [done|]. by intros [? ?].
  - split; [done|]. split; [done|]. split; [by intros ? [= <-]|]. split.
    + intros msg. split; [done|]. by intros (why' & [=] & _).
    + split; [by exists pattern|done].
Qed.

End PathInfo.

(** The pattern of one backslash, and a pattern that compiles. *)
Lemma PathInfoPredicate_init_compile_witness :
  PathInfoPredicate.init (H := Mini.re) "\"
  = Raise (ConfigurationError "bad escape (end of pattern) at position 0") ∧
  is_Ok (PathInfoPredicate.init (H := Mini.re) "/\d{2}").
Proof.
  split.
  - exact (proj1 (PathInfoPredicate_init_compile (H := Mini.re) "\")
             _ eq_refl).
  - rewrite (proj1 (proj2 (proj2
               (PathInfoPredicate_init_compile (H := Mini.re) "/\d{2}")))
               _ eq_refl).
    exact I.
Defined.

(** C5, as stated, fails: the repetition count of the pattern
    [a{99999999999}] is beyond the compiler's limit, [re.compile] raises
    [OverflowError], which is no [re.error], and that generic error, not a
    [ConfigurationError], leaves the construction. *)
Lemma PathInfoPredicate_init_generic_error_counterexample :
  re_compile (RegexEngine := Mini.re) "a{99999999999}"
  = inl (Re_other "OverflowError") ∧
  PathInfoPredicate.init (H := Mini.re) "a{99999999999}"
  = Raise (OtherError "OverflowError").
Proof. split; reflexivity. Qed.

(** ** HeaderPredicate *)

Section Header.
Context `{RegexEngine}.

(** What construction does with a [name:pattern] input whose pattern
    compiles. *)
Lemma HeaderPredicate_init_pattern (val name v : string) (pattern : Pattern) :
  Py.cut ":" val = Some (name, v) →
  re_compile v = inr pattern →
  HeaderPredicate.init val
  = Ok {| HeaderPredicate._text :=
            "header " +:+ name +:+ " = " +:+ pattern_str pattern;
          HeaderPredicate.name := name;
          HeaderPredicate.val := Some pattern |}.
Proof.
  intros Hcut Hre. unfold HeaderPredicate.init.
  rewrite (cut_Some_contains _ _ _ _ Hcut), (split1_cut _ _ _ _ Hcut).
  simpl. by rewrite Hre.
Qed.

Lemma HeaderPredicate_init_pattern_error (val name v : string) (why : re_error) :
  Py.cut ":" val = Some (name, v) →
  re_compile v = inl (Re_error why) →
  HeaderPredicate.init val = Raise (ConfigurationError (args0 why)).
Proof.
  intros Hcut Hre. unfold HeaderPredicate.init.
  rewrite (cut_Some_contains _ _ _ _ Hcut), (split1_cut _ _ _ _ Hcut).
  simpl. by rewrite Hre.
Qed.

Lemma HeaderPredicate_init_pattern_other (val name v what : string) :
  Py.cut ":" val = Some (name, v) →
  re_compile v = inl (Re_other what) →
  HeaderPredicate.init val = Raise (OtherError what).
Proof.
  intros Hcut Hre. unfold HeaderPredicate.init.
  rewrite (cut_Some_contains _ _ _ _ Hcut), (split1_cut _ _ _ _ Hcut).
  simpl. by rewrite Hre.
Qed.

Lemma HeaderPredicate_init_name (val : string) :
  Py.contains ":" val = false →
  HeaderPredicate.init val
  = Ok {| HeaderPredicate._text := "header " +:+ val;
          HeaderPredicate.name := val;
          HeaderPredicate.val := None |}.
Proof. intros Hc. unfold HeaderPredicate.init. by rewrite Hc. Qed.

(** For an input [name:pattern], the text built at construction ends in
    the printed form of the compiled pattern object, [pattern_str]; it is
    the text made from the pattern string exactly when the two coincide. *)
Lemma HeaderPredicate_text_prints_compiled (val name v : string) (pattern : Pattern) :
  Py.cut ":" val = Some (name, v) →
  re_compile v = inr pattern →
  ∃ p,
    HeaderPredicate.init val = Ok p ∧
    HeaderPredicate.text p = "header " +:+ name +:+ " = " +:+ pattern_str pattern ∧
    HeaderPredicate.phash p = HeaderPredicate.text p ∧
    (HeaderPredicate.text p = "header " +:+ name +:+ " = " +:+ v
     ↔ pattern_str pattern = v).
Proof.
  intros Hcut Hre. eexists.
  split; [exact (HeaderPredicate_init_pattern _ _ _ _ Hcut Hre)|].
  split; [done|]. split; [done|].
  unfold HeaderPredicate.text. simpl. split.
  - intros Heq. by repeat apply String.app_inj in Heq.
  - by intros ->.
Qed.

Context `{Collaborators}.

(** C6: a predicate built from a name alone holds exactly when the header
    is present; one built from [name:pattern] holds exactly when the header
    is present and the pattern matches its value from position 0, and is
    false, with no exception, when the header is absent. *)
Theorem HeaderPredicate_call_modes (val : string) (p : HeaderPredicate.t)
    (context : Resource) (request : Request) :
  HeaderPredicate.init val = Ok p →
  (Py.contains ":" val = false →
     (HeaderPredicate.call p context request = true
      ↔ is_Some (headers request val))) ∧
  (∀ name v, Py.cut ":" val = Some (name, v) →
     ∃ pattern,
       re_compile v = inr pattern ∧
       (HeaderPredicate.call p context request = true
        ↔ ∃ value, headers request name = Some value
                   ∧ pattern_match pattern value = true) ∧
       (headers request name = None →
        HeaderPredicate.call p context request = false)).
Proof.
  intros Hinit. split.
  - intros Hc. rewrite (HeaderPredicate_init_name _ Hc) in Hinit.
    injection Hinit as <-. unfold HeaderPredicate.call. simpl.
    by rewrite bool_decide_eq_true.
  - intros name v Hcut. destruct (re_compile v) as [[why|what]|pattern] eqn:Hre.
    { by rewrite (HeaderPredicate_init_pattern_error _ _ _ _ Hcut Hre) in Hinit. }
    { by rewrite (HeaderPredicate_init_pattern_other _ _ _ _ Hcut Hre) in Hinit. }
    rewrite (HeaderPredicate_init_pattern _ _ _ _ Hcut Hre) in Hinit.
    injection Hinit as <-. exists pattern. split; [done|].
    unfold HeaderPredicate.call. simpl.
    destruct (headers request name) as [value|].
    + split; [|done]. split.
      * intros Hm. by exists value.
      * by intros (value' & [= <-] & Hm).
    + split; [|done]. split; [done|]. by intros (value' & [=] & _).
Qed.

End Header.

(** C1, at [HeaderPredicate('X-Foo:bar')]: the text is
    [header X-Foo = re.compile('bar')], the printed form of the compiled
    pattern under CPython 3, and not [header X-Foo = bar], the text built
    from the pattern string handed in; [phash()] is that same text. *)
Theorem HeaderPredicate_text_of_name_pattern :
  ∃ p,
    HeaderPredicate.init (H := Mini.re) "X-Foo:bar" = Ok p ∧
    HeaderPredicate.text p = "header X-Foo = re.compile('bar')" ∧
    HeaderPredicate.phash p = "header X-Foo = re.compile('bar')" ∧
    HeaderPredicate.text p ≠ "header X-Foo = bar".
Proof.
  destruct (HeaderPredicate_text_prints_compiled (H := Mini.re)
              "X-Foo:bar" "X-Foo" "bar" _ eq_refl eq_refl)
    as (p & Hinit & Htext & Hphash & _).
  exists p. rewrite Hphash, Htext. repeat split; [done|]. discriminate.
Qed.

(** [HeaderPredicate('X-Foo:bar')] on a request whose header starts with
    the pattern, and on one without the header. *)
Lemma HeaderPredicate_call_modes_witness :
  match HeaderPredicate.init (H := Mini.re) "X-Foo:bar" with
  | Ok p =>
      HeaderPredicate.call p Mini.root (Mini.with_header "X-Foo" "barbaz") = true ∧
      HeaderPredicate.call p Mini.root Mini.blank_request = false
  | Raise _ => False
  end.
Proof.
  destruct (HeaderPredicate.init (H := Mini.re) "X-Foo:bar") as [p|e] eqn:Hinit;
    [|vm_compute in Hinit; discriminate Hinit].
  split.
  - destruct (proj2 (HeaderPredicate_call_modes "X-Foo:bar" p Mini.root
                       (Mini.with_header "X-Foo" "barbaz") Hinit)
                "X-Foo" "bar" eq_refl) as (pattern & Hre & Hiff & _).
    apply Hiff. exists "barbaz". split; [reflexivity|].
    injection Hre as <-. reflexivity.
  - destruct (proj2 (HeaderPredicate_call_modes "X-Foo:bar" p Mini.root
                       Mini.blank_request Hinit)
                "X-Foo" "bar" eq_refl) as (pattern & _ & _ & Habsent).
    apply Habsent. reflexivity.
Defined.

(** ** MatchParamPredicate *)

Lemma sorted_Permutation (l : list string) : Py.sorted l ≡ₚ l.
Proof. apply merge_sort_Permutation. Qed.

(** [sorted] depends on the items and their multiplicities, not on their
    order. *)
Lemma sorted_perm_eq (l1 l2 : list string) :
  l1 ≡ₚ l2 → Py.sorted l1 = Py.sorted l2.
Proof.
  intros Hperm. apply (Sorted_unique String.le).
  - apply Sorted_merge_sort, _.
  - apply Sorted_merge_sort, _.
  - by rewrite !sorted_Permutation.
Qed.

Lemma mapM_split_pairs (l : list string) :
  Forall (λ s, Py.contains "=" s = true) l →
  mapM (λ p, '(x, y) ← Py.unpack2 p; Ok (Py.strip x, Py.strip y))
       (Py.split1 "=" <$> l)
  = Ok (key_value <$> l).
Proof.
  induction 1 as [|s l Hs _ IH]; [done|].
  destruct (contains_true_cut _ _ Hs) as (a & b & Hcut).
  cbn [fmap list_fmap mapM]. fold (list_fmap _ _ (Py.split1 "=") l).
  change (list_fmap _ _ (Py.split1 "=") l) with (Py.split1 "=" <$> l).
  rewrite (split1_cut _ _ _ _ Hcut), IH. unfold key_value.
  rewrite Hcut. reflexivity.
Qed.

Lemma mapM_split_no_pair (l : list string) :
  Exists (λ s, Py.contains "=" s = false) l →
  mapM (λ p, '(x, y) ← Py.unpack2 p; Ok (Py.strip x, Py.strip y))
       (Py.split1 "=" <$> l)
  = Raise ValueError.
Proof.
  induction l as [|s l IH]; intros Hex; [by apply Exists_nil in Hex|].
  cbn [fmap list_fmap mapM].
  change (list_fmap _ _ (Py.split1 "=") l) with (Py.split1 "=" <$> l).
  destruct (Py.contains "=" s) eqn:Hs.
  - destruct (contains_true_cut _ _ Hs) as (a & b & Hcut).
    rewrite (split1_cut _ _ _ _ Hcut).
    apply Exists_cons in Hex as [Hex|Hex]; [congruence|].
    by rewrite (IH Hex).
  - by rewrite (split1_no_sep _ _ Hs).
Qed.

Lemma MatchParamPredicate_init_pairs (val : str_or_iter) :
  Forall (λ s, Py.contains "=" s = true) (items_of val) →
  MatchParamPredicate.init val
  = Ok {| MatchParamPredicate.val := Py.sorted (items_of val);
          MatchParamPredicate.reqs := key_value <$> Py.sorted (items_of val) |}.
Proof.
  intros Hall. unfold MatchParamPredicate.init.
  fold (items_of val). rewrite mapM_split_pairs; [done|].
  by rewrite sorted_Permutation.
Qed.

Lemma MatchParamPredicate_init_no_pair (val : str_or_iter) :
  Exists (λ s, Py.contains "=" s = false) (items_of val) →
  MatchParamPredicate.init val = Raise ValueError.
Proof.
  intros Hex. unfold MatchParamPredicate.init.
  fold (items_of val). rewrite mapM_split_no_pair; [done|].
  by rewrite sorted_Permutation.
Qed.

Lemma key_value_pairs_text (l : list string) :
  (λ '(x, y), x +:+ "=" +:+ y) <$> (key_value <$> l) = key_value_text <$> l.
Proof.
  rewrite <- list_fmap_compose. apply list_fmap_ext. intros _ s _.
  unfold key_value_text. simpl. by destruct (key_value s).
Qed.

(** C7, as amended: for [key=value] inputs, [text()] is [match_param]
    followed by the comma-joined trimmed pairs in the order of the sorted
    raw strings, duplicates kept; two inputs that are reorderings of one
    another (the same strings, as often) have the same text. *)
Theorem MatchParamPredicate_text_canonical (val val' : str_or_iter) :
  Forall (λ s, Py.contains "=" s = true) (items_of val) →
  items_of val ≡ₚ items_of val' →
  ∃ p p',
    MatchParamPredicate.init val = Ok p ∧
    MatchParamPredicate.init val' = Ok p' ∧
    MatchParamPredicate.text p = match_param_text (items_of val) ∧
    MatchParamPredicate.text p' = MatchParamPredicate.text p.
Proof.
  intros Hall Hperm.
  assert (Hall' : Forall (λ s, Py.contains "=" s = true) (items_of val'))
    by by rewrite <- Hperm.
  do 2 eexists.
  split; [exact (MatchParamPredicate_init_pairs _ Hall)|].
  split; [exact (MatchParamPredicate_init_pairs _ Hall')|].
  unfold MatchParamPredicate.text, match_param_text. simpl.
  rewrite !key_value_pairs_text, (sorted_perm_eq _ _ Hperm). done.
Qed.

(** The example of the specification, in both orders. *)
Lemma MatchParamPredicate_text_canonical_witness :
  ∃ p p',
    MatchParamPredicate.init (Iter ["def=1"; "abc=2"]) = Ok p ∧
    MatchParamPredicate.init (Iter ["abc=2"; "def=1"]) = Ok p' ∧
    MatchParamPredicate.text p = "match_param abc=2,def=1" ∧
    MatchParamPredicate.text p' = MatchParamPredicate.text p.
Proof.
  refine (MatchParamPredicate_text_canonical
            (Iter ["def=1"; "abc=2"]) (Iter ["abc=2"; "def=1"]) _ _).
  - repeat constructor.
  - apply perm_swap.
Defined.

(** C7, as stated, fails: [('a=1', 'a=1')] and [('a=1',)] hold the same set
    of strings and have different texts, since [sorted] keeps duplicates. *)
Lemma MatchParamPredicate_text_set_equal_counterexample :
  (∀ s : string, s ∈ ["a=1"; "a=1"] ↔ s ∈ ["a=1"]) ∧
  ∃ p p',
    MatchParamPredicate.init (Iter ["a=1"; "a=1"]) = Ok p ∧
    MatchParamPredicate.init (Iter ["a=1"]) = Ok p' ∧
    MatchParamPredicate.text p = "match_param a=1,a=1" ∧
    MatchParamPredicate.text p' = "match_param a=1" ∧
    MatchParamPredicate.text p ≠ MatchParamPredicate.text p'.
Proof.
  split.
  - intros s. rewrite !elem_of_cons, elem_of_nil. tauto.
  - do 2 eexists. split; [reflexivity|]. split; [reflexivity|].
    split; [reflexivity|]. split; [reflexivity|]. discriminate.
Qed.

(** ** Construction *)

Section Construction.
Context `{RegexEngine} `{Collaborators}.


End Construction.



(** ** TraversePredicate *)

Section Traverse.
Context `{Collaborators}.

Lemma with_traverse_lookup_match (context d : gmap string Py.value) path :
  with_traverse context d path !! "match"
  = Some (Py.VDict (<["traverse" := Py.VTuple (Py.VStr <$> path)]> d)).
Proof. unfold with_traverse. by rewrite lookup_insert_eq. Qed.

(** Storing the sequence leaves the top level of the info dictionary
    without a ['traverse'] key if it had none. *)
Lemma with_traverse_lookup_traverse (context d : gmap string Py.value) path :
  with_traverse context d path !! "traverse" = context !! "traverse".
Proof. unfold with_traverse. by rewrite lookup_insert_ne. Qed.

Lemma with_traverse_inj (context d : gmap string Py.value) path path' :
  with_traverse context d path = with_traverse context d path' → path = path'.
Proof.
  intros Heq. apply (f_equal (λ c, c !! "match")) in Heq.
  rewrite !with_traverse_lookup_match in Heq.
  injection Heq as Heq. apply (f_equal (λ m, m !! "traverse")) in Heq.
  rewrite !lookup_insert_eq in Heq. injection Heq as Heq.
  assert (Inj (=) (=) Py.VStr) by (by intros ?? [=]).
  revert Heq. apply (inj (fmap Py.VStr)).
Qed.

Lemma with_traverse_again (context d : gmap string Py.value) path path' :
  <["match" := Py.VDict (<["traverse" := Py.VTuple (Py.VStr <$> path')]>
                           (<["traverse" := Py.VTuple (Py.VStr <$> path)]> d))]>
    (with_traverse context d path)
  = with_traverse context d path'.
Proof. unfold with_traverse. by rewrite !insert_insert_eq. Qed.

Lemma TraversePredicate_call_guard (p : TraversePredicate.t)
    (context : gmap string Py.value) (request : Request) :
  is_Some (context !! "traverse") →
  TraversePredicate.call p context request = Ok (true, context).
Proof.
  intros Hin. unfold TraversePredicate.call. by rewrite bool_decide_eq_true_2.
Qed.

Lemma TraversePredicate_call_unguarded (p : TraversePredicate.t)
    (context : gmap string Py.value) (request : Request) :
  context !! "traverse" = None →
  TraversePredicate.call p context request
  = (m ← TraversePredicate.getitem context "match";
     path ← traversal_of p m;
     m ← TraversePredicate.setitem m "traverse" (Py.VTuple (Py.VStr <$> path));
     Ok (true, <["match" := m]> context)).
Proof.
  intros Hnone. unfold TraversePredicate.call, traversal_of.
  rewrite bool_decide_eq_false_2 by (rewrite Hnone; by intros [? [=]]).
  destruct (TraversePredicate.getitem context "match") as [m|e]; [|done].
  simpl. by destruct (TraversePredicate.tgenerate p m).
Qed.

(** A completed application on a dictionary without the key stored the
    sequence in the match dictionary. *)
Lemma TraversePredicate_call_stores (p : TraversePredicate.t)
    (context context1 : gmap string Py.value) (request : Request) (r : bool) :
  context !! "traverse" = None →
  TraversePredicate.call p context request = Ok (r, context1) →
  r = true ∧
  ∃ d path,
    context !! "match" = Some (Py.VDict d) ∧
    traversal_of p (Py.VDict d) = Ok path ∧
    context1 = with_traverse context d path.
Proof.
  intros Hnone. rewrite (TraversePredicate_call_unguarded _ _ _ Hnone).
  unfold TraversePredicate.getitem.
  destruct (context !! "match") as [m|] eqn:Hm; [|done]. simpl.
  destruct (traversal_of p m) as [path|e] eqn:Hpath; [|done]. simpl.
  destruct m as [| | | | |d|]; try done. simpl.
  intros [= <- <-]. split; [done|]. by exists d, path.
Qed.

(** The application that follows one: the generator runs again, on the
    match dictionary that now holds the stored sequence. *)
Lemma TraversePredicate_call_after (p : TraversePredicate.t)
    (context d : gmap string Py.value) (path : list string) (request : Request) :
  context !! "traverse" = None →
  TraversePredicate.call p (with_traverse context d path) request
  = (path' ← traversal_of p
       (Py.VDict (<["traverse" := Py.VTuple (Py.VStr <$> path)]> d));
     Ok (true, with_traverse context d path')).
Proof.
  intros Hnone. rewrite TraversePredicate_call_unguarded
    by by rewrite with_traverse_lookup_traverse.
  unfold TraversePredicate.getitem. rewrite with_traverse_lookup_match. simpl.
  destruct (traversal_of p _) as [path'|e]; [|done]. simpl.
  by rewrite with_traverse_again.
Qed.

End Traverse.

(** In the small route compiler, a segment other than the placeholder
    [:traverse] is filled without a look at the ['traverse'] entry. *)
Lemma Mini_fill_ignores_traverse (d : gmap string Py.value) (v : Py.value)
    (seg : Mini.segment) :
  seg ≠ Mini.Placeholder "traverse" →
  Mini.fill (<["traverse" := v]> d) seg = Mini.fill d seg.
Proof.
  destruct seg as [s|name]; [done|]. intros Hname. simpl.
  rewrite lookup_insert_ne; [done|]. by intros <-.
Qed.

(** So the generator of a pattern without that placeholder does not depend
    on the ['traverse'] entry of the match dictionary. *)
Lemma Mini_generator_ignores_traverse (pattern : string)
    (d : gmap string Py.value) (v : Py.value) :
  Forall (λ seg, seg ≠ Mini.Placeholder "traverse")
    (Mini.parse_segment <$> filter (λ s, Mini.nonempty s) (Mini.split "/" pattern)) →
  (Mini.compile_route pattern).2 (Py.VDict (<["traverse" := v]> d))
  = (Mini.compile_route pattern).2 (Py.VDict d).
Proof.
  intros Hsegs. unfold Mini.compile_route. simpl.
  assert (Hfill : ∀ segs, Forall (λ seg, seg ≠ Mini.Placeholder "traverse") segs →
                          mapM (Mini.fill (<["traverse" := v]> d)) segs
                          = mapM (Mini.fill d) segs).
  { induction 1 as [|seg segs Hseg _ IH]; [done|]. simpl.
    by rewrite (Mini_fill_ignores_traverse _ _ _ Hseg), IH. }
  by rewrite (Hfill _ Hsegs).
Qed.

Section TraverseTwice.
Context `{Collaborators}.

(** C3, as amended: when the info dictionary has a top-level ['traverse']
    key, the call does nothing and returns true.  A call that completes on a
    dictionary without that key returns true and stores the sequence in the
    match dictionary, under [info['match']['traverse']], so the top level
    still has no such key and the guard does not stop a second call: the
    second call runs the generator again, on the match dictionary that now
    holds the sequence, returns true and stores what it finds; the
    dictionary is left as it was exactly when that is the same sequence.
    Evaluation is idempotent whenever the result of the generator does not
    depend on the ['traverse'] entry of the match dictionary: then, for
    every info dictionary on which one call has completed, a second call on
    the same dictionary returns true and leaves it unchanged. *)
Theorem TraversePredicate_call_twice (p : TraversePredicate.t)
    (context : gmap string Py.value) (request request' : Request) :
  (is_Some (context !! "traverse") →
     TraversePredicate.call p context request = Ok (true, context)) ∧
  (∀ r context1,
     context !! "traverse" = None →
     TraversePredicate.call p context request = Ok (r, context1) →
     r = true ∧
     ∃ d path,
       context !! "match" = Some (Py.VDict d) ∧
       traversal_of p (Py.VDict d) = Ok path ∧
       context1 = with_traverse context d path ∧
       context1 !! "traverse" = None) ∧
  (∀ d path path',
     context !! "traverse" = None →
     traversal_of p (Py.VDict (<["traverse" := Py.VTuple (Py.VStr <$> path)]> d))
     = Ok path' →
     TraversePredicate.call p (with_traverse context d path) request'
     = Ok (true, with_traverse context d path') ∧
     (with_traverse context d path' = with_traverse context d path
      ↔ path' = path)) ∧
  ((∀ d v, TraversePredicate.tgenerate p (Py.VDict (<["traverse" := v]> d))
           = TraversePredicate.tgenerate p (Py.VDict d)) →
   ∀ r context1,
     TraversePredicate.call p context request = Ok (r, context1) →
     r = true ∧
     TraversePredicate.call p context1 request' = Ok (true, context1)).
Proof.
  split; [apply TraversePredicate_call_guard|]. split; [|split].
  - intros r context1 Hnone Hcall.
    destruct (TraversePredicate_call_stores _ _ _ _ _ Hnone Hcall)
      as (-> & d & path & Hm & Hpath & ->).
    split; [done|]. exists d, path.
    by rewrite with_traverse_lookup_traverse.
  - intros d path path' Hnone Hpath'.
    rewrite (TraversePredicate_call_after _ _ _ _ _ Hnone), Hpath'.
    split; [done|]. split; [apply with_traverse_inj|by intros ->].
  - intros Hignores r context1 Hcall.
    destruct (context !! "traverse") as [t|] eqn:Ht.
    + assert (Hin : is_Some (context !! "traverse")) by (rewrite Ht; eauto).
      rewrite (TraversePredicate_call_guard _ _ request Hin) in Hcall.
      injection Hcall as <- <-. split; [done|].
      by apply TraversePredicate_call_guard.
    + destruct (TraversePredicate_call_stores _ _ _ _ _ Ht Hcall)
        as (-> & d & path & Hm & Hpath & ->).
      split; [done|]. rewrite (TraversePredicate_call_after _ _ _ _ _ Ht).
      unfold traversal_of in *. by rewrite Hignores, Hpath.
Qed.

End TraverseTwice.

(** The predicate and the info dictionary of the test suite: the pattern
    [/1/:a/:b] has no placeholder [:traverse], the first call stores
    [('1', 'a', 'b')], and the second leaves the dictionary as it is. *)
Lemma TraversePredicate_call_twice_witness :
  TraversePredicate.init (H := Mini.pyramid) "/1/:a/:b" = Ok Mini.traverse_1_a_b ∧
  TraversePredicate.call Mini.traverse_1_a_b Mini.info_a_b Mini.blank_request
  = Ok (true, with_traverse Mini.info_a_b
                {[ "a" := Py.VStr "a"; "b" := Py.VStr "b" ]} ["1"; "a"; "b"]) ∧
  TraversePredicate.call Mini.traverse_1_a_b
    (with_traverse Mini.info_a_b
       {[ "a" := Py.VStr "a"; "b" := Py.VStr "b" ]} ["1"; "a"; "b"])
    Mini.blank_request
  = Ok (true, with_traverse Mini.info_a_b
                {[ "a" := Py.VStr "a"; "b" := Py.VStr "b" ]} ["1"; "a"; "b"]).
Proof.
  split; [reflexivity|].
  assert (Hfirst :
    TraversePredicate.call Mini.traverse_1_a_b Mini.info_a_b Mini.blank_request
    = Ok (true, with_traverse Mini.info_a_b
                  {[ "a" := Py.VStr "a"; "b" := Py.VStr "b" ]} ["1"; "a"; "b"]))
    by (vm_compute; reflexivity).
  split; [exact Hfirst|].
  refine (proj2 (proj2 (proj2 (proj2 (TraversePredicate_call_twice
            (H := Mini.pyramid) Mini.traverse_1_a_b Mini.info_a_b
            Mini.blank_request Mini.blank_request))) _ true _ Hfirst)).
  intros d v. apply (Mini_generator_ignores_traverse "/1/:a/:b").
  change (Forall (λ seg, seg ≠ Mini.Placeholder "traverse")
            [Mini.Text "1"; Mini.Placeholder "a"; Mini.Placeholder "b"]).
  repeat constructor; discriminate.
Defined.

(** C3, as stated, fails: with the pattern [/:traverse] and the info
    dictionary [{'match': {'traverse': 'a'}}], the first call completes and
    stores [('a',)] in the match dictionary; the top level has no
    ['traverse'] key, so the second call is not stopped: it generates from
    the stored tuple, stores another sequence and so changes the
    dictionary. *)
Lemma TraversePredicate_second_call_counterexample :
  TraversePredicate.init (H := Mini.pyramid) "/:traverse" = Ok Mini.traverse_self ∧
  ∃ context1 context2,
    TraversePredicate.call Mini.traverse_self Mini.info_traverse Mini.blank_request
    = Ok (true, context1) ∧
    context1 !! "match"
    = Some (Py.VDict {[ "traverse" := Py.VTuple [Py.VStr "a"] ]}) ∧
    context1 !! "traverse" = None ∧
    TraversePredicate.call Mini.traverse_self context1 Mini.blank_request
    = Ok (true, context2) ∧
    context2 !! "match"
    = Some (Py.VDict {[ "traverse" := Py.VTuple [Py.VStr "('a',)"] ]}) ∧
    context2 ≠ context1.
Proof.
  split; [reflexivity|].
  exists (with_traverse Mini.info_traverse {[ "traverse" := Py.VStr "a" ]} ["a"]),
         (with_traverse Mini.info_traverse {[ "traverse" := Py.VStr "a" ]} ["('a',)"]).
  split; [vm_compute; reflexivity|].
  split; [vm_compute; reflexivity|].
  split; [vm_compute; reflexivity|].
  split; [vm_compute; reflexivity|].
  split; [vm_compute; reflexivity|].
  intros Heq. apply with_traverse_inj in Heq. discriminate Heq.
Qed.

(** ** The cases of the test suite *)

Example XHRPredicate_text_True :
  XHRPredicate.text {| XHRPredicate.val := true |} = "xhr = True".
Proof. reflexivity. Qed.

Example RequestMethodPredicate_text_sorted :
  RequestMethodPredicate.init (Iter ["HEAD"; "GET"])
  = Ok {| RequestMethodPredicate.val := ["GET"; "HEAD"] |} ∧
  RequestMethodPredicate.text {| RequestMethodPredicate.val := ["GET"; "HEAD"] |}
  = "request_method = GET,HEAD".
Proof. split; reflexivity. Qed.

Example PathInfoPredicate_call_digits :
  ∃ p,
    PathInfoPredicate.init (H := Mini.re) "/\d{2}" = Ok p ∧
    PathInfoPredicate.text p = "path_info = /\d{2}" ∧
    pattern_match (PathInfoPredicate.val p) "/12" = true ∧
    pattern_match (PathInfoPredicate.val p) "/n12" = false.
Proof. eexists. repeat split. Qed.

Example RequestParamPredicate_text_withval :
  ∃ p,
    RequestParamPredicate.init "abc=  1" = Ok p ∧
    RequestParamPredicate.text p = "request_param abc = 1".
Proof. eexists. split; reflexivity. Qed.

Example RequestParamPredicate_text_untrimmed :
  ∃ p,
    RequestParamPredicate.init " abc " = Ok p ∧
    RequestParamPredicate.text p = "request_param  abc " ∧
    RequestParamPredicate.name p = " abc ".
Proof. eexists. repeat split. Qed.

Example MatchParamPredicate_text_trimmed :
  ∃ p,
    MatchParamPredicate.init (Iter ["def=  1"; "abc =2"]) = Ok p ∧
    MatchParamPredicate.text p = "match_param abc=2,def=1".
Proof. eexists. split; reflexivity. Qed.

Example CustomPredicate_phash_1 :
  CustomPredicate.phash {| CustomPredicate.func := Mini.accept_all |} = "custom:1" ∧
  CustomPredicate.text {| CustomPredicate.func := Mini.accept_all |}
  = "custom predicate: object predicate".
Proof. split; reflexivity. Qed.

Example HeaderPredicate_call_not_from_start :
  ∃ p,
    HeaderPredicate.init (H := Mini.re) "X-Foo:bar" = Ok p ∧
    HeaderPredicate.call p Mini.root (Mini.with_header "X-Foo" "xbar") = false ∧
    HeaderPredicate.call p Mini.root (Mini.with_header "X-Foo" "bar") = true.
Proof. eexists. repeat split. Qed.

(** * Further properties of the predicate classes *)

(** ** More on strings *)

Lemma app_cons (c : Ascii.ascii) (s t : string) :
  String c s +:+ t = String c (s +:+ t).
Proof. reflexivity. Qed.

Lemma contains_app (c : Ascii.ascii) (a b : string) :
  Py.contains c (a +:+ b) = Py.contains c a || Py.contains c b.
Proof.
  induction a as [|x a IH]; [done|].
  rewrite app_cons. simpl. by destruct (Ascii.eqb x c).
Qed.

(** The first separator of [a +:+ s] is the first separator of [s] when
    [a] has none. *)
Lemma cut_app (c : Ascii.ascii) (a s : string) :
  Py.contains c a = false →
  Py.cut c (a +:+ s)
  = match Py.cut c s with
    | Some (x, y) => Some (a +:+ x, y)
    | None => None
    end.
Proof.
  induction a as [|x a IH]; intros Ha.
  - change ("" +:+ s) with s. by destruct (Py.cut c s) as [[? ?]|].
  - rewrite app_cons. simpl in *.
    destruct (Ascii.eqb x c); [done|].
    rewrite (IH Ha). by destruct (Py.cut c s) as [[? ?]|].
Qed.

Lemma cut_app_sep (c : Ascii.ascii) (a b : string) :
  Py.contains c a = false →
  Py.cut c (a +:+ String c b) = Some (a, b).
Proof.
  intros Ha. rewrite (cut_app _ _ _ Ha). simpl.
  rewrite Ascii.eqb_refl. f_equal. f_equal.
  clear. induction a as [|x a IH]; [done|]. by rewrite app_cons, IH.
Qed.

Lemma app_last_inj (c : Ascii.ascii) (a a' : string) :
  a +:+ String c "" = a' +:+ String c "" → a = a'.
Proof.
  revert a'. induction a as [|x a IH]; intros [|x' a'].
  - done.
  - rewrite app_cons. intros [= _ Hnil]. by destruct a'.
  - rewrite app_cons. intros [= _ Hnil]. by destruct a.
  - rewrite !app_cons. intros [= -> Heq]. by rewrite (IH _ Heq).
Qed.

(** Trimming takes characters away and adds none. *)
Lemma contains_lstrip (c : Ascii.ascii) (s : string) :
  Py.contains c s = false → Py.contains c (Py.lstrip s) = false.
Proof.
  induction s as [|x s IH]; [done|]. simpl.
  destruct (Ascii.eqb x c) eqn:Hx; [done|]. intros Hs.
  destruct (Py.isspace x); [by apply IH|]. simpl. by rewrite Hx.
Qed.

Lemma contains_rstrip (c : Ascii.ascii) (s : string) :
  Py.contains c s = false → Py.contains c (Py.rstrip s) = false.
Proof.
  induction s as [|x s IH]; [done|]. simpl.
  destruct (Ascii.eqb x c) eqn:Hx; [done|]. intros Hs.
  specialize (IH Hs). destruct (Py.rstrip s) as [|y r].
  - destruct (Py.isspace x); [done|]. simpl. by rewrite Hx.
  - simpl in *. by rewrite Hx.
Qed.

Lemma contains_strip (c : Ascii.ascii) (s : string) :
  Py.contains c s = false → Py.contains c (Py.strip s) = false.
Proof. intros Hs. by apply contains_rstrip, contains_lstrip. Qed.

(** ** RequestParamPredicate: identity *)

(** What construction leaves in the object: the name holds no [=], and the
    text is built from the name and the value. *)
Lemma RequestParamPredicate_init_shape (val : string) (p : RequestParamPredicate.t) :
  RequestParamPredicate.init val = Ok p →
  Py.contains "=" (RequestParamPredicate.name p) = false ∧
  RequestParamPredicate.text p
  = match RequestParamPredicate.val p with
    | None => "request_param " +:+ RequestParamPredicate.name p
    | Some v => "request_param " +:+ RequestParamPredicate.name p +:+ " = " +:+ v
    end.
Proof.
  unfold RequestParamPredicate.init.
  destruct (Py.contains "=" val) eqn:Hc.
  - destruct (contains_true_cut _ _ Hc) as (a & b & Hcut).
    rewrite (split1_cut _ _ _ _ Hcut). simpl. intros [= <-]. simpl.
    split; [|done]. apply contains_strip.
    by destruct (cut_Some_first _ _ _ _ Hcut) as [_ Ha].
  - simpl. by intros [= <-].
Qed.

(** X1: the input is split at its first [=] only, so the value may hold
    further [=] signs, and white space around the name and around the value
    does not count: two inputs [name=value] whose names and values agree
    once trimmed build the same predicate, with the same text, phash and
    answers. *)
Theorem RequestParamPredicate_whitespace_insensitive (a b a' b' : string) :
  Py.contains "=" a = false →
  Py.contains "=" a' = false →
  Py.strip a = Py.strip a' →
  Py.strip b = Py.strip b' →
  ∃ p,
    RequestParamPredicate.init (a +:+ String "=" b) = Ok p ∧
    RequestParamPredicate.init (a' +:+ String "=" b') = Ok p ∧
    RequestParamPredicate.name p = Py.strip a ∧
    RequestParamPredicate.val p = Some (Py.strip b).
Proof.
  intros Ha Ha' Hab Hbb. unfold RequestParamPredicate.init.
  pose proof (cut_app_sep "=" a b Ha) as Hcut.
  pose proof (cut_app_sep "=" a' b' Ha') as Hcut'.
  rewrite (cut_Some_contains _ _ _ _ Hcut), (cut_Some_contains _ _ _ _ Hcut').
  rewrite (split1_cut _ _ _ _ Hcut), (split1_cut _ _ _ _ Hcut').
  simpl. rewrite <- Hab, <- Hbb. eexists. done.
Qed.

Lemma RequestParamPredicate_whitespace_insensitive_witness :
  ∃ p,
    RequestParamPredicate.init "abc=1=2" = Ok p ∧
    RequestParamPredicate.init " abc =  1=2 " = Ok p ∧
    RequestParamPredicate.name p = "abc" ∧
    RequestParamPredicate.val p = Some "1=2".
Proof.
  exact (RequestParamPredicate_whitespace_insensitive
           "abc" "1=2" " abc " "  1=2 " eq_refl eq_refl eq_refl eq_refl).
Defined.

(** X2: for predicates built by the constructor, [phash()] tells apart
    exactly the pairs of name and value: two of them have the same phash if
    and only if they have the same name and the same value (or both no
    value).  In particular an existence test never shares its phash with a
    value test. *)
Theorem RequestParamPredicate_phash_exact (val val' : string)
    (p p' : RequestParamPredicate.t) :
  RequestParamPredicate.init val = Ok p →
  RequestParamPredicate.init val' = Ok p' →
  (RequestParamPredicate.phash p = RequestParamPredicate.phash p'
   ↔ RequestParamPredicate.name p = RequestParamPredicate.name p'
     ∧ RequestParamPredicate.val p = RequestParamPredicate.val p').
Proof.
  intros Hp Hp'.
  destruct (RequestParamPredicate_init_shape _ _ Hp) as [Hn Ht].
  destruct (RequestParamPredicate_init_shape _ _ Hp') as [Hn' Ht'].
  unfold RequestParamPredicate.phash. rewrite Ht, Ht'. split.
  - destruct (RequestParamPredicate.val p) as [v|],
             (RequestParamPredicate.val p') as [v'|]; intros Heq.
    + apply String.app_inj in Heq.
      apply (f_equal (Py.cut "=")) in Heq.
      rewrite (cut_app "=" _ _ Hn), (cut_app "=" _ _ Hn') in Heq.
      simpl in Heq.
      injection Heq as Hname Hv. apply app_last_inj in Hname.
      change (v = v') in Hv. by rewrite Hname, Hv.
    + apply (f_equal (Py.contains "=")) in Heq.
      rewrite !contains_app, Hn, Hn' in Heq. done.
    + apply (f_equal (Py.contains "=")) in Heq.
      rewrite !contains_app, Hn, Hn' in Heq. done.
    + apply String.app_inj in Heq. by rewrite Heq.
  - by intros [-> ->].
Qed.

Lemma RequestParamPredicate_phash_exact_witness :
  ∃ p p',
    RequestParamPredicate.init "abc" = Ok p ∧
    RequestParamPredicate.init "abc=" = Ok p' ∧
    RequestParamPredicate.phash p ≠ RequestParamPredicate.phash p'.
Proof.
  do 2 eexists. split; [reflexivity|]. split; [reflexivity|].
  intros Heq.
  apply (RequestParamPredicate_phash_exact "abc" "abc=" _ _ eq_refl eq_refl) in Heq.
  destruct Heq as [_ Hval]. discriminate Hval.
Defined.

(** ** HeaderPredicate: the split *)

Section HeaderSplit.
Context `{RegexEngine}.

(** X3: [HeaderPredicate] splits its input at the first colon only and
    trims nothing: the header name is the text before that colon as it
    stands, and the pattern compiled is all the text after it, white space
    and further colons included.  When [re.compile] rejects that text with
    [re.error], construction raises [ConfigurationError] with the compiler's
    diagnostic; when [re.compile] raises an exception of another class, that
    exception leaves construction; when the text compiles, construction
    returns the predicate. *)
Theorem HeaderPredicate_first_colon_untrimmed (name v : string) :
  Py.contains ":" name = false →
  (∀ why, re_compile v = inl (Re_error why) →
     HeaderPredicate.init (name +:+ String ":" v)
     = Raise (ConfigurationError (args0 why))) ∧
  (∀ what, re_compile v = inl (Re_other what) →
     HeaderPredicate.init (name +:+ String ":" v) = Raise (OtherError what)) ∧
  (∀ pattern, re_compile v = inr pattern →
     ∃ p,
       HeaderPredicate.init (name +:+ String ":" v) = Ok p ∧
       HeaderPredicate.name p = name ∧
       HeaderPredicate.val p = Some pattern).
Proof.
  intros Hname. pose proof (cut_app_sep ":" name v Hname) as Hcut.
  split; [|split].
  - intros why Hre. exact (HeaderPredicate_init_pattern_error _ _ _ _ Hcut Hre).
  - intros what Hre. exact (HeaderPredicate_init_pattern_other _ _ _ _ Hcut Hre).
  - intros pattern Hre. eexists.
    split; [exact (HeaderPredicate_init_pattern _ _ _ _ Hcut Hre)|]. done.
Qed.

End HeaderSplit.

(** [HeaderPredicate('X-Foo: bar')] asks for a value that starts with a
    space. *)
Lemma HeaderPredicate_first_colon_untrimmed_witness :
  ∃ p,
    HeaderPredicate.init (H := Mini.re) "X-Foo: bar" = Ok p ∧
    HeaderPredicate.name p = "X-Foo" ∧
    HeaderPredicate.call p Mini.root (Mini.with_header "X-Foo" "bar") = false ∧
    HeaderPredicate.call p Mini.root (Mini.with_header "X-Foo" " bar") = true.
Proof.
  destruct (proj2 (proj2 (HeaderPredicate_first_colon_untrimmed (H := Mini.re)
                            "X-Foo" " bar" eq_refl)) _ eq_refl)
    as (p & Hinit & Hname & Hval).
  exists p. split; [exact Hinit|]. split; [exact Hname|].
  unfold HeaderPredicate.call. rewrite Hval, Hname. split; reflexivity.
Defined.

(** ** MatchParamPredicate: evaluation *)

Lemma MatchParamPredicate_init_Ok_pairs (val : str_or_iter) (p : MatchParamPredicate.t) :
  MatchParamPredicate.init val = Ok p →
  Forall (λ s, Py.contains "=" s = true) (items_of val).
Proof.
  intros Hinit.
  destruct (Forall_Exists_dec (λ s, Py.contains "=" s = true)
              (λ s, Py.contains "=" s = false)
              (λ s, match Py.contains "=" s as b
                      return ({b = true} + {b = false}) with
                    | true => left eq_refl
                    | false => right eq_refl
                    end)
              (items_of val)) as [Hall|Hex]; [done|].
  by rewrite (MatchParamPredicate_init_no_pair _ Hex) in Hinit.
Qed.

(** The pairs kept by a constructed predicate are the pairs of its input
    strings. *)
Lemma MatchParamPredicate_init_reqs (val : str_or_iter) (p : MatchParamPredicate.t) :
  MatchParamPredicate.init val = Ok p →
  ∀ kv, kv ∈ MatchParamPredicate.reqs p
        ↔ ∃ s, s ∈ items_of val ∧ kv = key_value s.
Proof.
  intros Hinit kv.
  pose proof (MatchParamPredicate_init_Ok_pairs _ _ Hinit) as Hall.
  rewrite (MatchParamPredicate_init_pairs _ Hall) in Hinit.
  injection Hinit as <-. simpl. rewrite list_elem_of_fmap.
  split; intros (s & H1 & H2); exists s.
  - subst. split; [|done]. by rewrite <- (sorted_Permutation (items_of val)).
  - subst. split; [done|]. by rewrite (sorted_Permutation (items_of val)).
Qed.

Section MatchParamCall.
Context `{Collaborators}.

Lemma MatchParamPredicate_call_true (p : MatchParamPredicate.t)
    (context : Resource) (request : Request) :
  MatchParamPredicate.call p context request = true
  ↔ ∀ kv, kv ∈ MatchParamPredicate.reqs p → matchdict request !! kv.1 = Some kv.2.
Proof.
  unfold MatchParamPredicate.call.
  rewrite forallb_forall. split; intros Hall kv Hkv.
  - apply list_elem_of_In, Hall in Hkv. destruct kv as [k v].
    by apply bool_decide_eq_true in Hkv.
  - apply list_elem_of_In, Hall in Hkv. destruct kv as [k v].
    by apply bool_decide_eq_true.
Qed.

(** X4: a constructed match-param predicate holds on a request exactly when
    the match dictionary maps the trimmed key of every input string to its
    trimmed value; a key that is missing makes it false, and an empty input
    makes it true on every request. *)
Theorem MatchParamPredicate_call_all_pairs (val : str_or_iter)
    (p : MatchParamPredicate.t) (context : Resource) (request : Request) :
  MatchParamPredicate.init val = Ok p →
  (MatchParamPredicate.call p context request = true
   ↔ ∀ s, s ∈ items_of val →
          matchdict request !! (key_value s).1 = Some (key_value s).2) ∧
  (∀ s, s ∈ items_of val → matchdict request !! (key_value s).1 = None →
        MatchParamPredicate.call p context request = false) ∧
  (items_of val = [] → MatchParamPredicate.call p context request = true).
Proof.
  intros Hinit. pose proof (MatchParamPredicate_init_reqs _ _ Hinit) as Hreqs.
  assert (Hiff : MatchParamPredicate.call p context request = true
                 ↔ ∀ s, s ∈ items_of val →
                        matchdict request !! (key_value s).1 = Some (key_value s).2).
  { rewrite MatchParamPredicate_call_true. split.
    - intros Hall s Hs. apply Hall, Hreqs. by exists s.
    - intros Hall kv (s & Hs & ->)%Hreqs. by apply Hall. }
  split; [exact Hiff|]. split.
  - intros s Hs Hnone. apply not_true_is_false. intros Hcall.
    by rewrite (proj1 Hiff Hcall s Hs) in Hnone.
  - intros Hnil. apply Hiff. intros s. rewrite Hnil. by intros ?%elem_of_nil.
Qed.

(** X5: the answer of a match-param predicate depends on the set of its
    input strings only: two constructed predicates whose inputs hold the
    same strings, in any order and however often, agree on every request
    (their texts may differ). *)
Theorem MatchParamPredicate_call_set_equal (val val' : str_or_iter)
    (p p' : MatchParamPredicate.t) (context : Resource) (request : Request) :
  MatchParamPredicate.init val = Ok p →
  MatchParamPredicate.init val' = Ok p' →
  (∀ s, s ∈ items_of val ↔ s ∈ items_of val') →
  MatchParamPredicate.call p context request
  = MatchParamPredicate.call p' context request.
Proof.
  intros Hinit Hinit' Hset.
  pose proof (MatchParamPredicate_init_reqs _ _ Hinit) as Hreqs.
  pose proof (MatchParamPredicate_init_reqs _ _ Hinit') as Hreqs'.
  apply eq_true_iff_eq. rewrite !MatchParamPredicate_call_true.
  split; intros Hall kv Hkv; apply Hall.
  - apply Hreqs. apply Hreqs' in Hkv as (s & Hs & ->). exists s.
    split; [by apply Hset|done].
  - apply Hreqs'. apply Hreqs in Hkv as (s & Hs & ->). exists s.
    split; [by apply Hset|done].
Qed.

(** X6: two input strings with the same trimmed key and different trimmed
    values make the predicate false on every request. *)
Theorem MatchParamPredicate_call_conflict (val : str_or_iter)
    (p : MatchParamPredicate.t) (s1 s2 : string)
    (context : Resource) (request : Request) :
  MatchParamPredicate.init val = Ok p →
  s1 ∈ items_of val →
  s2 ∈ items_of val →
  (key_value s1).1 = (key_value s2).1 →
  (key_value s1).2 ≠ (key_value s2).2 →
  MatchParamPredicate.call p context request = false.
Proof.
  intros Hinit Hs1 Hs2 Hkey Hval.
  pose proof (MatchParamPredicate_init_reqs _ _ Hinit) as Hreqs.
  apply not_true_is_false. intros Hcall.
  rewrite MatchParamPredicate_call_true in Hcall.
  assert (H1 := Hcall (key_value s1) (proj2 (Hreqs _) (ex_intro _ s1 (conj Hs1 eq_refl)))).
  assert (H2 := Hcall (key_value s2) (proj2 (Hreqs _) (ex_intro _ s2 (conj Hs2 eq_refl)))).
  rewrite Hkey, H2 in H1. by injection H1 as H1.
Qed.

End MatchParamCall.

Lemma MatchParamPredicate_call_all_pairs_witness :
  ∃ p,
    MatchParamPredicate.init (Iter ["abc=1"; "def= 2"]) = Ok p ∧
    MatchParamPredicate.call p Mini.root
      (Mini.with_matchdict {[ "abc" := "1"; "def" := "2" ]}) = true ∧
    MatchParamPredicate.call p Mini.root
      (Mini.with_matchdict {[ "abc" := "1" ]}) = false.
Proof.
  eexists. split; [reflexivity|]. split.
  - apply (proj2 (proj1 (MatchParamPredicate_call_all_pairs
                           (Iter ["abc=1"; "def= 2"]) _ Mini.root
                           (Mini.with_matchdict {[ "abc" := "1"; "def" := "2" ]})
                           eq_refl))).
    intros s [->|[->|[]%elem_of_nil]%elem_of_cons]%elem_of_cons; reflexivity.
  - apply (proj1 (proj2 (MatchParamPredicate_call_all_pairs
                           (Iter ["abc=1"; "def= 2"]) _ Mini.root
                           (Mini.with_matchdict {[ "abc" := "1" ]})
                           eq_refl)) "def= 2").
    + apply elem_of_cons. right. apply elem_of_cons. by left.
    + reflexivity.
Defined.

Lemma MatchParamPredicate_call_set_equal_witness :
  ∃ p p',
    MatchParamPredicate.init (Iter ["a=1"; "a=1"]) = Ok p ∧
    MatchParamPredicate.init (Str "a=1") = Ok p' ∧
    MatchParamPredicate.text p ≠ MatchParamPredicate.text p' ∧
    MatchParamPredicate.call p Mini.root (Mini.with_matchdict {[ "a" := "1" ]})
    = MatchParamPredicate.call p' Mini.root (Mini.with_matchdict {[ "a" := "1" ]}).
Proof.
  do 2 eexists. split; [reflexivity|]. split; [reflexivity|].
  split; [discriminate|].
  apply (MatchParamPredicate_call_set_equal
           (Iter ["a=1"; "a=1"]) (Str "a=1") _ _ Mini.root
           (Mini.with_matchdict {[ "a" := "1" ]}) eq_refl eq_refl).
  intros s. simpl. rewrite !elem_of_cons, elem_of_nil. tauto.
Defined.

Lemma MatchParamPredicate_call_conflict_witness :
  ∃ p,
    MatchParamPredicate.init (Iter ["a=1"; "a =2"]) = Ok p ∧
    MatchParamPredicate.call p Mini.root (Mini.with_matchdict {[ "a" := "1" ]})
    = false.
Proof.
  eexists. split; [reflexivity|].
  apply (MatchParamPredicate_call_conflict
           (Iter ["a=1"; "a =2"]) _ "a=1" "a =2" Mini.root
           (Mini.with_matchdict {[ "a" := "1" ]}) eq_refl).
  - apply elem_of_cons. by left.
  - apply elem_of_cons. right. apply elem_of_cons. by left.
  - reflexivity.
  - discriminate.
Defined.

(** ** CustomPredicate: identity *)

Lemma repr_int_inj (n m : Z) : Py.repr_int n = Py.repr_int m → n = m.
Proof.
  unfold Py.repr_int. intros Heq. apply DecimalZ.to_int_inj.
  assert (Hnz : ∀ z, Z.to_int z ≠ Decimal.Pos Decimal.Nil
                     ∧ Z.to_int z ≠ Decimal.Neg Decimal.Nil).
  { intros [|q|q]; simpl; split; try discriminate;
      intros [= Hq]; by apply (DecimalPos.Unsigned.to_uint_nonnil q). }
  pose proof (NilZero.isi _ (proj1 (Hnz n)) (proj2 (Hnz n))) as Hn.
  pose proof (NilZero.isi _ (proj1 (Hnz m)) (proj2 (Hnz m))) as Hm.
  rewrite Heq, Hm in Hn. by injection Hn.
Qed.

Section CustomIdentity.
Context `{Collaborators}.

(** X7: two custom predicates have the same [phash()] if and only if their
    callables have the same hash: the decimal form of the hash in the key
    loses nothing, and the text and the behaviour of the callable play no
    part. *)
Theorem CustomPredicate_phash_exact (p q : CustomPredicate.t) :
  CustomPredicate.phash p = CustomPredicate.phash q
  ↔ fn_hash (CustomPredicate.func p) = fn_hash (CustomPredicate.func q).
Proof.
  unfold CustomPredicate.phash. split.
  - intros Heq. apply String.app_inj in Heq. by apply repr_int_inj.
  - by intros ->.
Qed.

End CustomIdentity.

(** ** TraversePredicate: what a call touches, and what it raises *)

Section TraverseFrame.
Context `{Collaborators}.

(** X8: a call that completes returns true and changes nothing but the
    ['traverse'] entry of the match dictionary: every other key of the info
    dictionary and every other key of the match dictionary keeps its value,
    and what is stored is a tuple of strings.  With a top-level ['traverse']
    key the info dictionary is returned as it was. *)
Theorem TraversePredicate_call_frame (p : TraversePredicate.t)
    (context context1 : gmap string Py.value) (request : Request) (r : bool) :
  TraversePredicate.call p context request = Ok (r, context1) →
  r = true ∧
  (∀ key, key ≠ "match" → context1 !! key = context !! key) ∧
  (is_Some (context !! "traverse") → context1 = context) ∧
  (context !! "traverse" = None →
     ∃ d d1 path,
       context !! "match" = Some (Py.VDict d) ∧
       context1 !! "match" = Some (Py.VDict d1) ∧
       d1 !! "traverse" = Some (Py.VTuple (Py.VStr <$> path)) ∧
       ∀ key, key ≠ "traverse" → d1 !! key = d !! key).
Proof.
  intros Hcall. destruct (context !! "traverse") as [t|] eqn:Ht.
  - rewrite (TraversePredicate_call_guard p context request) in Hcall
      by (rewrite Ht; eauto).
    injection Hcall as <- <-. repeat split; done.
  - destruct (TraversePredicate_call_stores _ _ _ _ _ Ht Hcall)
      as (-> & d & path & Hm & _ & ->).
    split; [done|]. split; [|split; [by intros [? [=]]|]].
    + intros key Hkey. unfold with_traverse. by rewrite lookup_insert_ne.
    + intros _. exists d, (<["traverse" := Py.VTuple (Py.VStr <$> path)]> d), path.
      split; [done|]. split; [apply with_traverse_lookup_match|].
      split; [by rewrite lookup_insert_eq|].
      intros key Hkey. by rewrite lookup_insert_ne.
Qed.

(** X9: a call raises only in these ways, and in each of them: [KeyError]
    for ['match'] when the info dictionary has neither ['traverse'] nor
    ['match']; the exception of the generator or of the path splitter when
    one of them raises; [TypeError] when they return but the object under
    ['match'] is not a dictionary.  With a top-level ['traverse'] key nothing
    is raised. *)
Theorem TraversePredicate_call_raises (p : TraversePredicate.t)
    (context : gmap string Py.value) (request : Request) (e : exn) :
  TraversePredicate.call p context request = Raise e
  ↔ context !! "traverse" = None ∧
    (context !! "match" = None ∧ e = KeyError "match"
     ∨ ∃ m, context !! "match" = Some m ∧
            (traversal_of p m = Raise e
             ∨ ∃ path, traversal_of p m = Ok path
                       ∧ (∀ d, m ≠ Py.VDict d) ∧ e = TypeError)).
Proof.
  destruct (context !! "traverse") as [t|] eqn:Ht.
  - rewrite (TraversePredicate_call_guard p context request)
      by (rewrite Ht; eauto).
    split; [done|]. by intros [[=] _].
  - rewrite (TraversePredicate_call_unguarded _ _ _ Ht).
    unfold TraversePredicate.getitem.
    destruct (context !! "match") as [m|] eqn:Hm; simpl.
    + destruct (traversal_of p m) as [path|e'] eqn:Hpath; simpl.
      * destruct m as [| | | | |d|]; simpl.
        6: { split; [done|].
             intros [_ [[[=] _]|(m' & [= <-] & Hcases)]].
             rewrite Hpath in Hcases.
             destruct Hcases as [[=]|(path' & _ & Hnd & _)].
             by destruct (Hnd d). }
        all: split;
          [ intros [= <-]; split; [done|]; right; eexists; split; [done|];
            right; exists path; split; [done|]; split; [by intros d|done]
          | intros [_ [[[=] _]|(m' & [= <-] & Hcases)]];
            rewrite Hpath in Hcases;
            by destruct Hcases as [[=]|(path' & _ & _ & ->)] ].
      * split.
        -- intros [= <-]. split; [done|]. right. eexists. split; [done|]. by left.
        -- intros [_ [[[=] _]|(m' & [= <-] & Hcases)]].
           rewrite Hpath in Hcases.
           by destruct Hcases as [[= <-]|(path' & [=] & _)].
    + split.
      * intros [= <-]. split; [done|]. by left.
      * intros [_ [[_ ->]|(m' & [=] & _)]]. done.
Qed.

End TraverseFrame.

(** The route object beside the match dictionary is left alone. *)
Lemma TraversePredicate_call_frame_witness :
  ∃ context1,
    TraversePredicate.call Mini.traverse_1_a_b Mini.info_route Mini.blank_request
    = Ok (true, context1) ∧
    context1 !! "route" = Some (Py.VObject "route").
Proof.
  exists (with_traverse Mini.info_route
            {[ "a" := Py.VStr "a"; "b" := Py.VStr "b" ]} ["1"; "a"; "b"]).
  assert (Hcall :
    TraversePredicate.call Mini.traverse_1_a_b Mini.info_route Mini.blank_request
    = Ok (true, with_traverse Mini.info_route
                  {[ "a" := Py.VStr "a"; "b" := Py.VStr "b" ]} ["1"; "a"; "b"]))
    by (vm_compute; reflexivity).
  split; [exact Hcall|].
  rewrite (proj1 (proj2 (TraversePredicate_call_frame (H := Mini.pyramid)
                           _ _ _ _ _ Hcall)) "route") by discriminate.
  reflexivity.
Defined.

(** ** [phash] across and within the classes *)

Lemma startswith_app (prefix rest : string) :
  startswith prefix (prefix +:+ rest) = true.
Proof.
  induction prefix as [|a prefix IH]; [done|].
  rewrite app_cons. simpl. by rewrite Ascii.eqb_refl.
Qed.

(** No class starts its key with the literal of another class. *)
Lemma startswith_other_prefix (a b : class_name) (rest : string) :
  a ≠ b → a ≠ TraversePredicate_class → b ≠ TraversePredicate_class →
  startswith (phash_prefix a) (phash_prefix b +:+ rest) = false.
Proof. intros Hab Ha Hb. destruct a, b; try done; reflexivity. Qed.

Section HeaderShape.
Context `{RegexEngine}.

Lemma HeaderPredicate_init_shape (val : string) (p : HeaderPredicate.t) :
  HeaderPredicate.init val = Ok p →
  ∃ rest, HeaderPredicate.text p = "header " +:+ rest.
Proof.
  destruct (Py.contains ":" val) eqn:Hc.
  - destruct (contains_true_cut _ _ Hc) as (name & v & Hcut).
    destruct (re_compile v) as [[why|what]|pattern] eqn:Hre.
    + by rewrite (HeaderPredicate_init_pattern_error _ _ _ _ Hcut Hre).
    + by rewrite (HeaderPredicate_init_pattern_other _ _ _ _ Hcut Hre).
    + rewrite (HeaderPredicate_init_pattern _ _ _ _ Hcut Hre).
      intros [= <-]. by eexists.
  - rewrite (HeaderPredicate_init_name _ Hc). intros [= <-]. by eexists.
Qed.

End HeaderShape.

Section PhashClasses.
Context `{RegexEngine} `{Collaborators}.

Lemma Constructed_phash_prefix (p : Predicate) :
  Constructed p →
  match class_of p with
  | TraversePredicate_class => phash p = ""
  | c => ∃ rest, phash p = phash_prefix c +:+ rest
  end.
Proof.
  intros [v q Hq|v q Hq|val q Hq|val q Hq|val q Hq|val q Hq
         |v q Hq|marker q Hq|v q Hq|func q Hq|val q Hq]; simpl;
    try (by eexists).
  - destruct (RequestParamPredicate_init_shape _ _ Hq) as [_ Ht].
    unfold RequestParamPredicate.phash. rewrite Ht.
    destruct (RequestParamPredicate.val q); by eexists.
  - apply (HeaderPredicate_init_shape _ _ Hq).
Qed.

(** X10: predicates of different classes never share a [phash()]: each
    class starts its key with a literal of its own (the traverse predicate
    has the empty key, which no other class produces), so for predicates
    built by the constructors an equal phash means the same class. *)
Theorem phash_tells_classes_apart (p q : Predicate) :
  Constructed p →
  Constructed q →
  class_of p ≠ class_of q →
  phash p ≠ phash q.
Proof.
  intros Hp Hq Hclass Heq.
  pose proof (Constructed_phash_prefix p Hp) as Hpp.
  pose proof (Constructed_phash_prefix q Hq) as Hqq.
  assert (Hnonempty : ∀ c rest, c ≠ TraversePredicate_class →
                                phash_prefix c +:+ rest ≠ "")
    by (intros [] rest Hc; done).
  destruct (decide (class_of p = TraversePredicate_class)) as [Hpt|Hpt];
    destruct (decide (class_of q = TraversePredicate_class)) as [Hqt|Hqt].
  - congruence.
  - rewrite Hpt in Hpp.
    assert (∃ rest, phash q = phash_prefix (class_of q) +:+ rest) as [rest Hrest]
      by (destruct (class_of q); done).
    rewrite <- Heq, Hpp in Hrest. by apply (Hnonempty (class_of q) rest).
  - rewrite Hqt in Hqq.
    assert (∃ rest, phash p = phash_prefix (class_of p) +:+ rest) as [rest Hrest]
      by (destruct (class_of p); done).
    rewrite Heq, Hqq in Hrest. by apply (Hnonempty (class_of p) rest).
  - assert (∃ rest, phash p = phash_prefix (class_of p) +:+ rest) as [rest Hrest]
      by (destruct (class_of p); done).
    assert (∃ rest, phash q = phash_prefix (class_of q) +:+ rest) as [rest' Hrest']
      by (destruct (class_of q); done).
    pose proof (startswith_app (phash_prefix (class_of p)) rest) as Hstart.
    rewrite <- Hrest, Heq, Hrest' in Hstart.
    by rewrite startswith_other_prefix in Hstart.
Qed.

(** X11: within the classes that print their one stored value, [phash()] is
    exact: two XHR predicates share it exactly when they hold the same
    boolean, two path-info predicates exactly when they were given the same
    pattern string, two accept predicates exactly when they hold the same
    media type. *)
Theorem phash_exact_single_value :
  (∀ p q : XHRPredicate.t,
     XHRPredicate.phash p = XHRPredicate.phash q
     ↔ XHRPredicate.val p = XHRPredicate.val q) ∧
  (∀ p q : PathInfoPredicate.t,
     PathInfoPredicate.phash p = PathInfoPredicate.phash q
     ↔ PathInfoPredicate.orig p = PathInfoPredicate.orig q) ∧
  (∀ p q : AcceptPredicate.t,
     AcceptPredicate.phash p = AcceptPredicate.phash q
     ↔ AcceptPredicate.val p = AcceptPredicate.val q).
Proof.
  split; [|split]; intros p q.
  - unfold XHRPredicate.phash, XHRPredicate.text. split; [|by intros ->].
    intros Heq%String.app_inj.
    by destruct (XHRPredicate.val p), (XHRPredicate.val q).
  - unfold PathInfoPredicate.phash, PathInfoPredicate.text.
    split; [|by intros ->]. by intros Heq%String.app_inj.
  - unfold AcceptPredicate.phash, AcceptPredicate.text.
    split; [|by intros ->]. by intros Heq%String.app_inj.
Qed.

End PhashClasses.

(** A request-param predicate and a header predicate for the same name. *)
Lemma phash_tells_classes_apart_witness :
  ∃ p q,
    RequestParamPredicate.init "abc" = Ok p ∧
    HeaderPredicate.init (H := Mini.re) "abc" = Ok q ∧
    phash (H := Mini.re) (H0 := Mini.pyramid) (RequestParam p)
    ≠ phash (H := Mini.re) (H0 := Mini.pyramid) (Header q).
Proof.
  do 2 eexists. split; [reflexivity|]. split; [reflexivity|].
  apply (phash_tells_classes_apart (H := Mini.re) (H0 := Mini.pyramid)).
  - by apply (Constructed_RequestParam "abc").
  - by apply (Constructed_Header "abc").
  - discriminate.
Defined.

(** ** Where [phash] is not exact *)

Lemma app_assoc_string (a b c : string) : (a +:+ b) +:+ c = a +:+ (b +:+ c).
Proof. induction a as [|x a IH]; [done|]. by rewrite !app_cons, IH. Qed.

Lemma app_sep_neq (s t : string) (c : Ascii.ascii) : s ≠ s +:+ String c t.
Proof.
  induction s as [|x s IH]; [done|]. rewrite app_cons. intros [= Heq]. done.
Qed.

Lemma has_space_app (a b : string) :
  has_space (a +:+ b) = has_space a || has_space b.
Proof.
  induction a as [|x a IH]; [done|]. rewrite app_cons. simpl.
  by rewrite IH, orb_assoc.
Qed.

Lemma lstrip_no_space (s : string) : has_space s = false → Py.lstrip s = s.
Proof. destruct s as [|c s]; [done|]. simpl. by intros [-> _]%orb_false_elim. Qed.

Lemma rstrip_no_space (s : string) : has_space s = false → Py.rstrip s = s.
Proof.
  induction s as [|c s IH]; [done|]. simpl.
  intros [Hc Hs]%orb_false_elim. rewrite (IH Hs), Hc. by destruct s.
Qed.

(** Text without white space is its own trimmed form. *)
Lemma strip_no_space (s : string) : has_space s = false → Py.strip s = s.
Proof.
  intros Hs. unfold Py.strip. rewrite (lstrip_no_space _ Hs).
  by apply rstrip_no_space.
Qed.

Lemma sorted_pair (s1 s2 : string) :
  String.le s1 s2 → Py.sorted [s1; s2] = [s1; s2].
Proof.
  intros Hle. apply (Sorted_unique String.le).
  - apply Sorted_merge_sort, _.
  - repeat constructor. done.
  - apply sorted_Permutation.
Qed.

Lemma key_value_clean (k v : string) :
  Py.contains "=" k = false →
  has_space k = false →
  has_space v = false →
  key_value (k +:+ String "=" v) = (k, v).
Proof.
  intros Hk Hsk Hsv. unfold key_value.
  by rewrite (cut_app_sep _ _ _ Hk), (strip_no_space _ Hsk), (strip_no_space _ Hsv).
Qed.

Lemma contains_app_sep (c : Ascii.ascii) (a b : string) :
  Py.contains c (a +:+ String c b) = true.
Proof.
  rewrite contains_app. simpl. by rewrite Ascii.eqb_refl, orb_true_r.
Qed.

Section MatchParamCollision.
Context `{Collaborators}.

(** X12: [phash()] of a match-param predicate is not exact, because the
    pairs are joined with commas and a value may hold a comma.  Take keys
    and values without white space, the keys without [=], and let the string
    [k1=v1] come no later than [k2=v2] in the order [sorted] uses.  Then the
    predicate built from the two strings [k1=v1] and [k2=v2], given in
    either order, and the predicate built from the one string [k1=v1,k2=v2]
    have the same phash; the first asks for two entries, the second for the
    single entry [k1] with the value [v1,k2=v2], and no request satisfies
    both. *)
Theorem MatchParamPredicate_phash_collision (k1 v1 k2 v2 : string)
    (context : Resource) (request : Request) :
  Py.contains "=" k1 = false →
  Py.contains "=" k2 = false →
  has_space (k1 +:+ String "=" v1) = false →
  has_space (k2 +:+ String "=" v2) = false →
  String.le (k1 +:+ String "=" v1) (k2 +:+ String "=" v2) →
  ∃ p q,
    MatchParamPredicate.init
      (Iter [k1 +:+ String "=" v1; k2 +:+ String "=" v2]) = Ok p ∧
    MatchParamPredicate.init
      (Iter [k2 +:+ String "=" v2; k1 +:+ String "=" v1]) = Ok p ∧
    MatchParamPredicate.init
      (Str ((k1 +:+ String "=" v1) +:+ String "," (k2 +:+ String "=" v2))) = Ok q ∧
    MatchParamPredicate.phash p = MatchParamPredicate.phash q ∧
    MatchParamPredicate.reqs p = [(k1, v1); (k2, v2)] ∧
    MatchParamPredicate.reqs q = [(k1, v1 +:+ String "," (k2 +:+ String "=" v2))] ∧
    (MatchParamPredicate.call p context request = true →
     MatchParamPredicate.call q context request = false).
Proof.
  intros Hk1 Hk2 Hs1 Hs2 Hle.
  pose proof Hs1 as Hs1'. pose proof Hs2 as Hs2'.
  rewrite has_space_app in Hs1'. apply orb_false_elim in Hs1' as [Hsk1 Hsv1].
  rewrite has_space_app in Hs2'. apply orb_false_elim in Hs2' as [Hsk2 Hsv2].
  simpl in Hsv1, Hsv2.
  assert (Hjoined : (k1 +:+ String "=" v1) +:+ String "," (k2 +:+ String "=" v2)
                    = k1 +:+ String "=" (v1 +:+ String "," (k2 +:+ String "=" v2)))
    by (by rewrite app_assoc_string, app_cons).
  assert (Hsv : has_space (v1 +:+ String "," (k2 +:+ String "=" v2)) = false).
  { rewrite has_space_app, Hsv1. simpl. exact Hs2. }
  exists {| MatchParamPredicate.val := [k1 +:+ String "=" v1; k2 +:+ String "=" v2];
            MatchParamPredicate.reqs := [(k1, v1); (k2, v2)] |}.
  exists {| MatchParamPredicate.val :=
              [(k1 +:+ String "=" v1) +:+ String "," (k2 +:+ String "=" v2)];
            MatchParamPredicate.reqs :=
              [(k1, v1 +:+ String "," (k2 +:+ String "=" v2))] |}.
  split; [|split; [|split; [|split; [|split; [done|split; [done|]]]]]].
  - rewrite MatchParamPredicate_init_pairs.
    + simpl. rewrite (sorted_pair _ _ Hle). simpl.
      by rewrite !key_value_clean.
    + simpl. constructor; [apply contains_app_sep|].
      constructor; [apply contains_app_sep|]. constructor.
  - rewrite MatchParamPredicate_init_pairs.
    + simpl. rewrite (sorted_perm_eq _ _ (perm_swap _ _ [])).
      rewrite (sorted_pair _ _ Hle). simpl.
      by rewrite !key_value_clean.
    + simpl. constructor; [apply contains_app_sep|].
      constructor; [apply contains_app_sep|]. constructor.
  - rewrite MatchParamPredicate_init_pairs.
    + simpl. change (Py.sorted [?s]) with [s]. simpl.
      rewrite Hjoined. by rewrite key_value_clean.
    + simpl. constructor; [|constructor].
      rewrite Hjoined. apply contains_app_sep.
  - unfold MatchParamPredicate.phash, MatchParamPredicate.text. simpl.
    f_equal. by rewrite !app_assoc_string, !app_cons.
  - rewrite !MatchParamPredicate_call_true. simpl. intros Hp.
    apply not_true_is_false. rewrite MatchParamPredicate_call_true. simpl.
    intros Hq.
    pose proof (Hp (k1, v1) ltac:(apply elem_of_cons; by left)) as H1.
    pose proof (Hq (k1, _) ltac:(apply elem_of_cons; by left)) as H2.
    simpl in H1, H2. rewrite H1 in H2. injection H2 as H2.
    by apply app_sep_neq in H2.
Qed.

End MatchParamCollision.

(** [('a=1', 'b=2')] and ['a=1,b=2'] on the match dictionary
    [{'a': '1', 'b': '2'}]. *)
Lemma MatchParamPredicate_phash_collision_witness :
  ∃ p q,
    MatchParamPredicate.init (Iter ["a=1"; "b=2"]) = Ok p ∧
    MatchParamPredicate.init (Str "a=1,b=2") = Ok q ∧
    MatchParamPredicate.phash p = MatchParamPredicate.phash q ∧
    MatchParamPredicate.call p Mini.root
      (Mini.with_matchdict {[ "a" := "1"; "b" := "2" ]}) = true ∧
    MatchParamPredicate.call q Mini.root
      (Mini.with_matchdict {[ "a" := "1"; "b" := "2" ]}) = false.
Proof.
  destruct (MatchParamPredicate_phash_collision (H := Mini.pyramid)
              "a" "1" "b" "2" Mini.root
              (Mini.with_matchdict {[ "a" := "1"; "b" := "2" ]})
              eq_refl eq_refl eq_refl eq_refl I)
    as (p & q & Hp & _ & Hq & Hphash & Hreqs & _ & Hboth).
  exists p, q. split; [exact Hp|]. split; [exact Hq|]. split; [exact Hphash|].
  assert (Hcall : MatchParamPredicate.call p Mini.root
                    (Mini.with_matchdict {[ "a" := "1"; "b" := "2" ]}) = true)
    by (unfold MatchParamPredicate.call; rewrite Hreqs; reflexivity).
  split; [exact Hcall|exact (Hboth Hcall)].
Defined.

Section HeaderCollision.
Context `{RegexEngine}.

(** X13: [phash()] of a header predicate is not exact either.  When the
    printed form of the compiled pattern holds no colon, the predicate built
    from [name:pattern] and the existence test built from the colon-free
    string [name = <printed pattern>] have the same phash, though the first
    matches the header [name] against the pattern and the second only asks
    whether a header with the longer name is present. *)
Theorem HeaderPredicate_phash_collision (name v : string) (pattern : Pattern) :
  Py.contains ":" name = false →
  re_compile v = inr pattern →
  Py.contains ":" (pattern_str pattern) = false →
  ∃ p q,
    HeaderPredicate.init (name +:+ String ":" v) = Ok p ∧
    HeaderPredicate.init (name +:+ " = " +:+ pattern_str pattern) = Ok q ∧
    HeaderPredicate.phash p = HeaderPredicate.phash q ∧
    HeaderPredicate.name p = name ∧
    HeaderPredicate.val p = Some pattern ∧
    HeaderPredicate.name q = name +:+ " = " +:+ pattern_str pattern ∧
    HeaderPredicate.val q = None.
Proof.
  intros Hname Hre Hstr.
  assert (Hq : Py.contains ":" (name +:+ " = " +:+ pattern_str pattern) = false).
  { rewrite !contains_app, Hname, Hstr. reflexivity. }
  do 2 eexists.
  split; [exact (HeaderPredicate_init_pattern _ _ _ _
                   (cut_app_sep ":" name v Hname) Hre)|].
  split; [exact (HeaderPredicate_init_name _ Hq)|]. done.
Qed.

End HeaderCollision.

(** [HeaderPredicate('X-Foo:bar')] and
    [HeaderPredicate("X-Foo = re.compile('bar')")] on a request that has the
    header [X-Foo: bar]. *)
Lemma HeaderPredicate_phash_collision_witness :
  ∃ p q,
    HeaderPredicate.init (H := Mini.re) "X-Foo:bar" = Ok p ∧
    HeaderPredicate.init (H := Mini.re) "X-Foo = re.compile('bar')" = Ok q ∧
    HeaderPredicate.phash p = HeaderPredicate.phash q ∧
    HeaderPredicate.call p Mini.root (Mini.with_header "X-Foo" "bar") = true ∧
    HeaderPredicate.call q Mini.root (Mini.with_header "X-Foo" "bar") = false.
Proof.
  destruct (HeaderPredicate_phash_collision (H := Mini.re)
              "X-Foo" "bar" _ eq_refl eq_refl eq_refl)
    as (p & q & Hp & Hq & Hphash & Hpn & Hpv & Hqn & Hqv).
  exists p, q. split; [exact Hp|]. split; [exact Hq|]. split; [exact Hphash|].
  unfold HeaderPredicate.call. rewrite Hpn, Hpv, Hqn, Hqv.
  split; reflexivity.
Defined.

(** ** A value test implies the existence test *)

Lemma RequestParamPredicate_init_value (k v : string) :
  Py.contains "=" k = false →
  RequestParamPredicate.init (k +:+ String "=" v)
  = Ok {| RequestParamPredicate._text :=
            "request_param " +:+ Py.strip k +:+ " = " +:+ Py.strip v;
          RequestParamPredicate.name := Py.strip k;
          RequestParamPredicate.val := Some (Py.strip v) |}.
Proof.
  intros Hk. pose proof (cut_app_sep "=" k v Hk) as Hcut.
  unfold RequestParamPredicate.init.
  by rewrite (cut_Some_contains _ _ _ _ Hcut), (split1_cut _ _ _ _ Hcut).
Qed.

Lemma RequestParamPredicate_init_existence (name : string) :
  Py.contains "=" name = false →
  RequestParamPredicate.init name
  = Ok {| RequestParamPredicate._text := "request_param " +:+ name;
          RequestParamPredicate.name := name;
          RequestParamPredicate.val := None |}.
Proof. intros Hname. unfold RequestParamPredicate.init. by rewrite Hname. Qed.

Section Implications.
Context `{RegexEngine} `{Collaborators}.

(** X14: a request that satisfies the value test [name=value] satisfies the
    existence test for the trimmed name: whenever
    [RequestParamPredicate('name=value')] is true on a request, so is
    [RequestParamPredicate(name.strip())]. *)
Theorem RequestParamPredicate_value_implies_existence (k v : string)
    (p q : RequestParamPredicate.t) (context : Resource) (request : Request) :
  Py.contains "=" k = false →
  RequestParamPredicate.init (k +:+ String "=" v) = Ok p →
  RequestParamPredicate.init (Py.strip k) = Ok q →
  RequestParamPredicate.call p context request = true →
  RequestParamPredicate.call q context request = true.
Proof.
  intros Hk Hp Hq.
  rewrite (RequestParamPredicate_init_value _ _ Hk) in Hp.
  rewrite (RequestParamPredicate_init_existence _ (contains_strip _ _ Hk)) in Hq.
  injection Hp as <-. injection Hq as <-.
  unfold RequestParamPredicate.call. simpl.
  rewrite !bool_decide_eq_true. intros ->. eauto.
Qed.

(** X15: a request that satisfies the pattern test [name:pattern] satisfies
    the existence test for the same name: whenever
    [HeaderPredicate('name:pattern')] is true on a request, so is
    [HeaderPredicate('name')]. *)
Theorem HeaderPredicate_pattern_implies_existence (name v : string)
    (p q : HeaderPredicate.t) (context : Resource) (request : Request) :
  Py.contains ":" name = false →
  HeaderPredicate.init (name +:+ String ":" v) = Ok p →
  HeaderPredicate.init name = Ok q →
  HeaderPredicate.call p context request = true →
  HeaderPredicate.call q context request = true.
Proof.
  intros Hname Hp Hq.
  pose proof (cut_app_sep ":" name v Hname) as Hcut.
  rewrite (HeaderPredicate_init_name _ Hname) in Hq. injection Hq as <-.
  destruct (re_compile v) as [[why|what]|pattern] eqn:Hre.
  { by rewrite (HeaderPredicate_init_pattern_error _ _ _ _ Hcut Hre) in Hp. }
  { by rewrite (HeaderPredicate_init_pattern_other _ _ _ _ Hcut Hre) in Hp. }
  rewrite (HeaderPredicate_init_pattern _ _ _ _ Hcut Hre) in Hp.
  injection Hp as <-. unfold HeaderPredicate.call. simpl.
  destruct (headers request name) as [value|]; [|done].
  intros _. apply bool_decide_eq_true. eauto.
Qed.

End Implications.

Lemma RequestParamPredicate_value_implies_existence_witness :
  ∃ p q,
    RequestParamPredicate.init " abc =1" = Ok p ∧
    RequestParamPredicate.init "abc" = Ok q ∧
    RequestParamPredicate.call p Mini.root (Mini.with_params {[ "abc" := "1" ]})
    = true ∧
    RequestParamPredicate.call q Mini.root (Mini.with_params {[ "abc" := "1" ]})
    = true.
Proof.
  do 2 eexists. split; [reflexivity|]. split; [reflexivity|].
  match goal with |- ?A ∧ _ => assert (Hp : A) by reflexivity end.
  split; [exact Hp|].
  exact (RequestParamPredicate_value_implies_existence
           (H0 := Mini.pyramid) " abc " "1" _ _
           Mini.root (Mini.with_params {[ "abc" := "1" ]})
           eq_refl eq_refl eq_refl Hp).
Defined.

Lemma HeaderPredicate_pattern_implies_existence_witness :
  ∃ p q,
    HeaderPredicate.init (H := Mini.re) "X-Foo:bar" = Ok p ∧
    HeaderPredicate.init (H := Mini.re) "X-Foo" = Ok q ∧
    HeaderPredicate.call p Mini.root (Mini.with_header "X-Foo" "barbaz") = true ∧
    HeaderPredicate.call q Mini.root (Mini.with_header "X-Foo" "barbaz") = true.
Proof.
  do 2 eexists. split; [reflexivity|]. split; [reflexivity|].
  match goal with |- ?A ∧ _ => assert (Hp : A) by reflexivity end.
  split; [exact Hp|].
  exact (HeaderPredicate_pattern_implies_existence (H := Mini.re)
           (H0 := Mini.pyramid) "X-Foo" "bar" _ _
           Mini.root (Mini.with_header "X-Foo" "barbaz")
           eq_refl eq_refl eq_refl Hp).
Defined.
